(** * xtr::CFile and xtr::cfile: owning wrappers around [std::FILE*]

    A shallow embedding of [include/CFile.hpp] and [include/cfile.hpp].

    Both classes have a single data member, a [std::FILE*].  Objects live in
    a store indexed by their address, so that two references may designate
    the same object.  The C library is an external collaborator: every call
    the wrappers make to it is appended to a trace, and what it returns is
    given by an arbitrary function of the calls made so far. *)

From Stdlib Require Import ZArith List String Bool Lia.
Import ListNotations.

Open Scope Z_scope.

(** ** Values *)

(** A [std::FILE*]: an address, [0] being the null pointer. *)
Definition FILE_ptr := Z.

Definition nullptr : FILE_ptr := 0.

(** A [const char*] that is either null or points to a null-terminated
    string. *)
Definition c_str := option string.

(** The address of a [CFile] / [cfile] object. *)
Definition Addr := nat.

(** ** The calls made to <cstdio> *)

Inductive Call : Type :=
| std_fopen (filename mode : c_str)
| std_freopen (filename mode : c_str) (stream : FILE_ptr)
| std_fclose (stream : FILE_ptr)
| std_fflush (stream : FILE_ptr)
| std_setbuf (stream : FILE_ptr) (buffer : Z)
| std_setvbuf (stream : FILE_ptr) (buffer : Z) (mode : Z) (size : Z)
| std_fread (buffer size count : Z) (stream : FILE_ptr)
| std_fwrite (buffer size count : Z) (stream : FILE_ptr)
| std_fgetc (stream : FILE_ptr)
| std_fgets (buffer count : Z) (stream : FILE_ptr)
| std_fputc (character : Z) (stream : FILE_ptr)
| std_fputs (buffer : c_str) (stream : FILE_ptr)
| std_ungetc (character : Z) (stream : FILE_ptr)
| std_fscanf (stream : FILE_ptr) (format : c_str) (args : list Z)
| std_vfscanf (stream : FILE_ptr) (format : c_str) (va : Z)
| std_fprintf (stream : FILE_ptr) (format : c_str) (args : list Z)
| std_vfprintf (stream : FILE_ptr) (format : c_str) (va : Z)
| std_ftell (stream : FILE_ptr)
| std_fgetpos (stream : FILE_ptr) (position : Z)
| std_fseek (stream : FILE_ptr) (offset origin : Z)
| std_fsetpos (stream : FILE_ptr) (position : Z)
| std_rewind (stream : FILE_ptr)
| std_clearerr (stream : FILE_ptr)
| std_feof (stream : FILE_ptr)
| std_ferror (stream : FILE_ptr)
| std_perror (message : c_str)
| std_remove (filename : c_str)
| std_rename (oldfilename newfilename : c_str)
| std_tmpfile
| std_tmpnam (buffer : Z).

(** What <cstdio> provides and the headers do not define: the value every
    call returns (pointers, [int], [long] and [std::size_t] alike are
    integers here), which may depend on all earlier calls, and the three
    macros used by [setvbuf]. *)
Record Cstdio : Type := {
  std_return : list Call -> Call -> Z;
  _IONBF : Z;
  _IOFBF : Z;
  BUFSIZ : Z
}.

(** ** Program state and the monad of member functions *)

Record World : Type := {
  objs : Addr -> FILE_ptr;   (* the pointer member of the object at each address *)
  trace : list Call          (* calls to <cstdio> so far, oldest first *)
}.

(** A member function either returns, or stops at a failed [assert]. *)
Inductive Outcome (A : Type) : Type :=
| Returns (a : A) (w : World)
| AssertFail (w : World).

Arguments Returns {A} a w.
Arguments AssertFail {A} w.

Definition M (A : Type) : Type := World -> Outcome A.

Definition ret {A : Type} (a : A) : M A := fun w => Returns a w.

Definition bind {A B : Type} (m : M A) (k : A -> M B) : M B :=
  fun w =>
    match m w with
    | Returns a w' => k a w'
    | AssertFail w' => AssertFail w'
    end.

Declare Scope cxx_scope.
Delimit Scope cxx_scope with cxx.

Notation "x <- m ;; k" := (bind m (fun x => k))
  (at level 100, m at next level, right associativity) : cxx_scope.
Notation "m ;; k" := (bind m (fun _ => k))
  (at level 100, right associativity) : cxx_scope.

Open Scope cxx_scope.

(** Reading and writing the pointer member of the object at [this]. *)
Definition load (this : Addr) : M FILE_ptr :=
  fun w => Returns (objs w this) w.

Definition store (this : Addr) (value : FILE_ptr) : M unit :=
  fun w =>
    Returns tt {| objs := fun a => if Nat.eqb a this then value else objs w a;
                  trace := trace w |}.

(** [std::exchange(obj, new_value)]. *)
Definition std_exchange (obj : Addr) (new_value : FILE_ptr) : M FILE_ptr :=
  old_value <- load obj ;;
  store obj new_value ;;
  ret old_value.

(** A call to <cstdio>: logged, and answered by the library. *)
Definition call (libc : Cstdio) (c : Call) : M Z :=
  fun w =>
    Returns (std_return libc (trace w) c)
            {| objs := objs w; trace := trace w ++ [c] |}.

(** [assert(condition)]; compiled out when [NDEBUG] is defined. *)
Definition assert (NDEBUG : bool) (condition : bool) : M unit :=
  fun w =>
    if NDEBUG then Returns tt w
    else if condition then Returns tt w
    else AssertFail w.

(** [if (condition) { body }]. *)
Definition when (condition : bool) (body : M unit) : M unit :=
  if condition then body else ret tt.

(** [switch (scrutinee) { case ...: return ...; }] followed by [default]:
    the case labels of a switch are pairwise distinct, so the first match is
    the only one. *)
Fixpoint switch {A : Type} (scrutinee : Z) (cases : list (Z * A)) (default : A) : A :=
  match cases with
  | [] => default
  | (label, body) :: rest =>
      if scrutinee =? label then body else switch scrutinee rest default
  end.

(** Conversion of a [std::size_t] to [int] (32 bits, two's complement). *)
Definition to_int (n : Z) : Z := (n + 2 ^ 31) mod 2 ^ 32 - 2 ^ 31.

(** The expression given where a [std::FILE*] or a [std::nullptr_t] is
    expected: the literal [nullptr], or an expression of type [std::FILE*]
    with its value.  Overload resolution sees the type only. *)
Inductive HandleExpr : Type :=
| expr_nullptr
| expr_FILE_ptr (value : FILE_ptr).

(** The result of overload resolution: a function to call, or a function
    defined as deleted, which makes the program ill-formed. *)
Inductive Resolution (A : Type) : Type :=
| Selected (f : A)
| Deleted.

Arguments Selected {A} f.
Arguments Deleted {A}.

(** Default-initialization ([T x;]) or value-initialization ([T x{};]) of an
    object whose default constructor is defaulted on its first
    declaration. *)
Inductive InitKind : Type :=
| default_initialization
| value_initialization.

(** ** class xtr::CFile (include/CFile.hpp) *)

Module CFile.

(** [enum class Mode]: a scoped enumeration over [int]; a value is its
    underlying integer. *)
Definition Mode := Z.

Definition Read     : Mode := 1.   (* 0b0000'0001 *)
Definition Write    : Mode := 2.   (* 0b0000'0010 *)
Definition Append   : Mode := 4.   (* 0b0000'0100 *)
Definition Binary   : Mode := 8.   (* 0b0000'1000 *)
Definition Extended : Mode := 16.  (* 0b0001'0000 *)

(** [operator|(Mode, Mode)]. *)
Definition operator_or (rhs lhs : Mode) : Mode := Z.lor rhs lhs.

Infix "|'" := operator_or (at level 50, left associativity) : cxx_scope.

(** A type for which [is_string] holds: [const char*] / [char*], or
    [std::string]. *)
Inductive String_arg : Type :=
| arg_c_str (value : c_str)
| arg_std_string (value : string).

(** A type for which [is_access_mode] holds: [Mode], or a string. *)
Inductive Access_mode_arg : Type :=
| arg_Mode (mode : Mode)
| arg_String (value : String_arg).

(** A pass-through member function together with its arguments; the
    [sizeof_T] and [N] of the templates are given explicitly. *)
Inductive Io : Type :=
| io_fflush
| io_setbuf (buffer : Z)
| io_setvbuf_nullptr
| io_setvbuf_buffer (buffer : Z)
| io_setvbuf (buffer mode size : Z)
| io_fread (buffer size count : Z)
| io_fread_T (sizeof_T buffer count : Z)
| io_fread_array (sizeof_T N buffer : Z)
| io_fwrite (buffer size count : Z)
| io_fwrite_T (sizeof_T buffer count : Z)
| io_fwrite_array (sizeof_T N buffer : Z)
| io_fgetc
| io_fgets (buffer count : Z)
| io_fgets_array (N buffer : Z)
| io_fputc (character : Z)
| io_fputs (buffer : String_arg)
| io_ungetc (character : Z)
| io_fscanf (format : String_arg) (args : list Z)
| io_vfscanf (format : String_arg) (va : Z)
| io_fprintf (format : String_arg) (args : list Z)
| io_vfprintf (format : String_arg) (va : Z)
| io_ftell
| io_fgetpos (position : Z)
| io_fseek (offset origin : Z)
| io_fsetpos (position : Z)
| io_rewind
| io_clearerr
| io_feof
| io_ferror.

Section Members.

Variable libc : Cstdio.
Variable NDEBUG : bool.

(** [to_cstring(Mode)]. *)
Definition to_cstring (mode : Mode) : M c_str :=
  switch mode
    [ (Read,                       ret (Some "r"%string));
      (Write,                      ret (Some "w"%string));
      (Append,                     ret (Some "a"%string));
      (Read |' Extended,           ret (Some "r+"%string));
      (Write |' Extended,          ret (Some "w+"%string));
      (Append |' Extended,         ret (Some "a+"%string));
      (Read |' Binary,             ret (Some "rb"%string));
      (Write |' Binary,            ret (Some "wb"%string));
      (Append |' Binary,           ret (Some "ab"%string));
      (Read |' Binary |' Extended,   ret (Some "rb+"%string));
      (Write |' Binary |' Extended,  ret (Some "wb+"%string));
      (Append |' Binary |' Extended, ret (Some "ab+"%string)) ]
    (assert NDEBUG false ;;
     ret None).

(** [to_cstring(const std::string&)] and [to_cstring(const char* )]. *)
Definition to_cstring_string (value : String_arg) : c_str :=
  match value with
  | arg_std_string s => Some s
  | arg_c_str p => p
  end.

(** The overload of [to_cstring] chosen for an access-mode argument. *)
Definition to_cstring_access_mode (mode : Access_mode_arg) : M c_str :=
  match mode with
  | arg_Mode m => to_cstring m
  | arg_String s => ret (to_cstring_string s)
  end.

(** [explicit CFile() noexcept = default;] with the member initializer
    [std::FILE *stream{};]. *)
Definition ctor_default (kind : InitKind) (this : Addr) : M unit :=
  store this nullptr.

(** [explicit CFile(std::FILE *other)]. *)
Definition ctor_FILE (other : FILE_ptr) (this : Addr) : M unit :=
  store this other.

(** Overload resolution between [CFile(std::FILE* )] and
    [CFile(std::nullptr_t) = delete]. *)
Definition ctor_adopt (e : HandleExpr) : Resolution (Addr -> M unit) :=
  match e with
  | expr_nullptr => Deleted
  | expr_FILE_ptr other => Selected (ctor_FILE other)
  end.

(** [CFile(const T &filename, const U &mode)]. *)
Definition ctor_open (filename : String_arg) (mode : Access_mode_arg)
    (this : Addr) : M unit :=
  m <- to_cstring_access_mode mode ;;
  s <- call libc (std_fopen (to_cstring_string filename) m) ;;
  store this s.

(** [CFile(CFile &&other)]. *)
Definition ctor_move (other : Addr) (this : Addr) : M unit :=
  s <- std_exchange other nullptr ;;
  store this s.

(** [CFile &operator=(CFile &&other)]. *)
Definition operator_assign (other : Addr) (this : Addr) : M unit :=
  stream <- load this ;;
  when (negb (stream =? nullptr))
    (call libc (std_fclose stream) ;; ret tt) ;;
  s <- std_exchange other nullptr ;;
  store this s.

(** [~CFile()]. *)
Definition dtor (this : Addr) : M unit :=
  stream <- load this ;;
  when (negb (stream =? nullptr))
    (call libc (std_fclose stream) ;;
     store this nullptr).

(** [int reset()]. *)
Definition reset (this : Addr) : M Z :=
  stream <- load this ;;
  if negb (stream =? nullptr) then
    result <- call libc (std_fclose stream) ;;
    store this nullptr ;;
    ret result
  else ret 0.

(** [int reset(std::FILE *other)]. *)
Definition reset_FILE (other : FILE_ptr) (this : Addr) : M Z :=
  stream <- load this ;;
  result <- (if negb (stream =? nullptr)
             then call libc (std_fclose stream)
             else ret 0) ;;
  store this other ;;
  ret result.

(** Overload resolution between [reset(std::FILE* )] and
    [reset(std::nullptr_t) = delete]. *)
Definition reset_adopt (e : HandleExpr) : Resolution (Addr -> M Z) :=
  match e with
  | expr_nullptr => Deleted
  | expr_FILE_ptr other => Selected (reset_FILE other)
  end.

(** [std::FILE *release()]. *)
Definition release (this : Addr) : M FILE_ptr :=
  result <- load this ;;
  store this nullptr ;;
  ret result.

(** [std::FILE *&get()]: a reference to the member, that is, the place
    where it is stored; the caller reads it with [load] and writes it with
    [store]. *)
Definition get (this : Addr) : M Addr := ret this.

(** [operator==] and [operator!=] against [nullptr], in either order. *)
Definition operator_eq (object : Addr) : M bool :=
  stream <- load object ;; ret (stream =? nullptr).

Definition operator_ne (object : Addr) : M bool :=
  stream <- load object ;; ret (negb (stream =? nullptr)).

(** *** File access *)

Definition fopen (filename : String_arg) (mode : Access_mode_arg)
    (this : Addr) : M unit :=
  stream <- load this ;;
  assert NDEBUG (stream =? nullptr) ;;
  m <- to_cstring_access_mode mode ;;
  s <- call libc (std_fopen (to_cstring_string filename) m) ;;
  store this s.

Definition freopen (filename : String_arg) (mode : Access_mode_arg)
    (this : Addr) : M unit :=
  m <- to_cstring_access_mode mode ;;
  stream <- load this ;;
  s <- call libc (std_freopen (to_cstring_string filename) m stream) ;;
  store this s.

Definition fclose (this : Addr) : M Z :=
  stream <- load this ;;
  result <- call libc (std_fclose stream) ;;
  store this nullptr ;;
  ret result.

Definition fflush (this : Addr) : M Z :=
  stream <- load this ;; call libc (std_fflush stream).

Definition setbuf (buffer : Z) (this : Addr) : M unit :=
  stream <- load this ;; call libc (std_setbuf stream buffer) ;; ret tt.

Definition setvbuf_nullptr (this : Addr) : M Z :=
  stream <- load this ;; call libc (std_setvbuf stream 0 (_IONBF libc) 0).

Definition setvbuf_buffer (buffer : Z) (this : Addr) : M Z :=
  let mode := if buffer =? 0 then _IONBF libc else _IOFBF libc in
  let size := if buffer =? 0 then 0 else BUFSIZ libc in
  stream <- load this ;; call libc (std_setvbuf stream buffer mode size).

Definition setvbuf (buffer mode size : Z) (this : Addr) : M Z :=
  stream <- load this ;; call libc (std_setvbuf stream buffer mode size).

(** *** Direct input/output *)

Definition fread (buffer size count : Z) (this : Addr) : M Z :=
  stream <- load this ;; call libc (std_fread buffer size count stream).

Definition fread_T (sizeof_T buffer count : Z) (this : Addr) : M Z :=
  fread buffer sizeof_T count this.

Definition fread_array (sizeof_T N buffer : Z) (this : Addr) : M Z :=
  fread buffer sizeof_T N this.

Definition fwrite (buffer size count : Z) (this : Addr) : M Z :=
  stream <- load this ;; call libc (std_fwrite buffer size count stream).

Definition fwrite_T (sizeof_T buffer count : Z) (this : Addr) : M Z :=
  fwrite buffer sizeof_T count this.

Definition fwrite_array (sizeof_T N buffer : Z) (this : Addr) : M Z :=
  fwrite buffer sizeof_T N this.

(** *** Unformatted input/output *)

Definition fgetc (this : Addr) : M Z :=
  stream <- load this ;; call libc (std_fgetc stream).

Definition fgets (buffer count : Z) (this : Addr) : M Z :=
  stream <- load this ;; call libc (std_fgets buffer count stream).

Definition fgets_array (N buffer : Z) (this : Addr) : M Z :=
  fgets buffer (to_int N) this.

Definition fputc (character : Z) (this : Addr) : M Z :=
  stream <- load this ;; call libc (std_fputc character stream).

Definition fputs (buffer : String_arg) (this : Addr) : M Z :=
  stream <- load this ;;
  call libc (std_fputs (to_cstring_string buffer) stream).

Definition ungetc (character : Z) (this : Addr) : M Z :=
  stream <- load this ;; call libc (std_ungetc character stream).

(** *** Formatted input/output *)

Definition fscanf (format : String_arg) (args : list Z) (this : Addr) : M Z :=
  stream <- load this ;;
  call libc (std_fscanf stream (to_cstring_string format) args).

Definition vfscanf (format : String_arg) (va : Z) (this : Addr) : M Z :=
  stream <- load this ;;
  call libc (std_vfscanf stream (to_cstring_string format) va).

Definition fprintf (format : String_arg) (args : list Z) (this : Addr) : M Z :=
  stream <- load this ;;
  call libc (std_fprintf stream (to_cstring_string format) args).

Definition vfprintf (format : String_arg) (va : Z) (this : Addr) : M Z :=
  stream <- load this ;;
  call libc (std_vfprintf stream (to_cstring_string format) va).

(** *** File positioning *)

Definition ftell (this : Addr) : M Z :=
  stream <- load this ;; call libc (std_ftell stream).

Definition fgetpos (position : Z) (this : Addr) : M Z :=
  stream <- load this ;; call libc (std_fgetpos stream position).

Definition fseek (offset origin : Z) (this : Addr) : M Z :=
  stream <- load this ;; call libc (std_fseek stream offset origin).

Definition fsetpos (position : Z) (this : Addr) : M Z :=
  stream <- load this ;; call libc (std_fsetpos stream position).

Definition rewind (this : Addr) : M unit :=
  stream <- load this ;; call libc (std_rewind stream) ;; ret tt.

(** *** Error handling *)

Definition clearerr (this : Addr) : M unit :=
  stream <- load this ;; call libc (std_clearerr stream) ;; ret tt.

Definition feof (this : Addr) : M Z :=
  stream <- load this ;; call libc (std_feof stream).

Definition ferror (this : Addr) : M Z :=
  stream <- load this ;; call libc (std_ferror stream).

Definition perror (message : String_arg) : M unit :=
  call libc (std_perror (to_cstring_string message)) ;; ret tt.

(** *** Operations on files *)

Definition remove (filename : String_arg) : M Z :=
  call libc (std_remove (to_cstring_string filename)).

Definition rename (oldfilename newfilename : String_arg) : M Z :=
  call libc (std_rename (to_cstring_string oldfilename)
                        (to_cstring_string newfilename)).

(** [static CFile tmpfile()]: the returned object is built at [result]. *)
Definition tmpfile (result : Addr) : M unit :=
  s <- call libc std_tmpfile ;;
  ctor_FILE s result.

Definition tmpnam (buffer : Z) : M Z :=
  call libc (std_tmpnam buffer).

(** Running a pass-through member function; [None] is the result of a
    function returning [void]. *)
Definition some (m : M Z) : M (option Z) := r <- m ;; ret (Some r).

Definition none (m : M unit) : M (option Z) := m ;; ret None.

Definition invoke (op : Io) (this : Addr) : M (option Z) :=
  match op with
  | io_fflush => some (fflush this)
  | io_setbuf buffer => none (setbuf buffer this)
  | io_setvbuf_nullptr => some (setvbuf_nullptr this)
  | io_setvbuf_buffer buffer => some (setvbuf_buffer buffer this)
  | io_setvbuf buffer mode size => some (setvbuf buffer mode size this)
  | io_fread buffer size count => some (fread buffer size count this)
  | io_fread_T sizeof_T buffer count => some (fread_T sizeof_T buffer count this)
  | io_fread_array sizeof_T N buffer => some (fread_array sizeof_T N buffer this)
  | io_fwrite buffer size count => some (fwrite buffer size count this)
  | io_fwrite_T sizeof_T buffer count => some (fwrite_T sizeof_T buffer count this)
  | io_fwrite_array sizeof_T N buffer => some (fwrite_array sizeof_T N buffer this)
  | io_fgetc => some (fgetc this)
  | io_fgets buffer count => some (fgets buffer count this)
  | io_fgets_array N buffer => some (fgets_array N buffer this)
  | io_fputc character => some (fputc character this)
  | io_fputs buffer => some (fputs buffer this)
  | io_ungetc character => some (ungetc character this)
  | io_fscanf format args => some (fscanf format args this)
  | io_vfscanf format va => some (vfscanf format va this)
  | io_fprintf format args => some (fprintf format args this)
  | io_vfprintf format va => some (vfprintf format va this)
  | io_ftell => some (ftell this)
  | io_fgetpos position => some (fgetpos position this)
  | io_fseek offset origin => some (fseek offset origin this)
  | io_fsetpos position => some (fsetpos position this)
  | io_rewind => none (rewind this)
  | io_clearerr => none (clearerr this)
  | io_feof => some (feof this)
  | io_ferror => some (ferror this)
  end.

End Members.

End CFile.

(** ** class xtr::cfile (include/cfile.hpp) *)

Module cfile.

(** [enum class mode]. *)
Definition mode := Z.

Definition read     : mode := 1.   (* 0b0000'0001 *)
Definition write    : mode := 2.   (* 0b0000'0010 *)
Definition append   : mode := 4.   (* 0b0000'0100 *)
Definition binary   : mode := 8.   (* 0b0000'1000 *)
Definition extended : mode := 16.  (* 0b0001'0000 *)

(** [operator|(mode, mode)]. *)
Definition operator_or (rhs lhs : mode) : mode :=
  let result := Z.lor rhs lhs in
  result.

Infix "|," := operator_or (at level 50, left associativity) : cxx_scope.

(** The [Type] of the [mode] parameter of the templates: one of the two
    types [to_access_mode_string] is overloaded on. *)
Inductive Access_mode_arg : Type :=
| arg_mode (access_mode : mode)
| arg_c_str (access_mode : c_str).

(** A pass-through member function together with its arguments. *)
Inductive Io : Type :=
| io_fflush
| io_setbuf (buffer : Z)
| io_setvbuf_nullptr
| io_setvbuf_buffer (buffer : Z)
| io_setvbuf (buffer mode size : Z)
| io_fread (buffer size count : Z)
| io_fread_T (sizeof_Type buffer count : Z)
| io_fread_array (sizeof_Type Size buffer : Z)
| io_fwrite (buffer size count : Z)
| io_fwrite_T (sizeof_Type buffer count : Z)
| io_fwrite_array (sizeof_Type Size buffer : Z)
| io_fgetc
| io_fgets (buffer count : Z)
| io_fgets_array (Size buffer : Z)
| io_fputc (character : Z)
| io_fputs (buffer : c_str)
| io_ungetc (character : Z)
| io_fscanf (format : c_str) (args : list Z)
| io_vfscanf (format : c_str) (va : Z)
| io_fprintf (format : c_str) (args : list Z)
| io_vfprintf (format : c_str) (va : Z)
| io_ftell
| io_fgetpos (position : Z)
| io_fseek (offset origin : Z)
| io_fsetpos (position : Z)
| io_rewind
| io_clearerr
| io_feof
| io_ferror.

Section Members.

Variable libc : Cstdio.
Variable NDEBUG : bool.

(** [to_access_mode_string(const char* )]. *)
Definition to_access_mode_string_c_str (access_mode : c_str) : c_str :=
  access_mode.

(** [to_access_mode_string(mode)]. *)
Definition to_access_mode_string (access_mode : mode) : M c_str :=
  switch access_mode
    [ (read,                       ret (Some "r"%string));
      (write,                      ret (Some "w"%string));
      (append,                     ret (Some "a"%string));
      (read |, extended,           ret (Some "r+"%string));
      (write |, extended,          ret (Some "w+"%string));
      (append |, extended,         ret (Some "a+"%string));
      (read |, binary,             ret (Some "rb"%string));
      (write |, binary,            ret (Some "wb"%string));
      (append |, binary,           ret (Some "ab"%string));
      (read |, binary |, extended,   ret (Some "rb+"%string));
      (write |, binary |, extended,  ret (Some "wb+"%string));
      (append |, binary |, extended, ret (Some "ab+"%string)) ]
    (assert NDEBUG false ;;
     ret None).

(** The overload of [to_access_mode_string] chosen for [const Type &mode]. *)
Definition to_access_mode_string_arg (m : Access_mode_arg) : M c_str :=
  match m with
  | arg_mode access_mode => to_access_mode_string access_mode
  | arg_c_str access_mode => ret (to_access_mode_string_c_str access_mode)
  end.

(** [explicit cfile() noexcept = default;] with the member
    [std::FILE *m_stream;], which has no initializer: default-initialization
    leaves the member as the storage happens to be, value-initialization
    zero-initializes it first. *)
Definition ctor_default (kind : InitKind) (this : Addr) : M unit :=
  match kind with
  | default_initialization => ret tt
  | value_initialization => store this 0
  end.

(** [explicit cfile(std::FILE *other)]. *)
Definition ctor_FILE (other : FILE_ptr) (this : Addr) : M unit :=
  store this other.

(** Overload resolution between [cfile(std::FILE* )] and
    [cfile(std::nullptr_t) = delete]. *)
Definition ctor_adopt (e : HandleExpr) : Resolution (Addr -> M unit) :=
  match e with
  | expr_nullptr => Deleted
  | expr_FILE_ptr other => Selected (ctor_FILE other)
  end.

(** [cfile(const char *filename, const Type &mode)]. *)
Definition ctor_open (filename : c_str) (mode : Access_mode_arg)
    (this : Addr) : M unit :=
  m <- to_access_mode_string_arg mode ;;
  s <- call libc (std_fopen filename m) ;;
  store this s.

(** [cfile(cfile &&other)]. *)
Definition ctor_move (other : Addr) (this : Addr) : M unit :=
  s <- std_exchange other nullptr ;;
  store this s.

(** [cfile &operator=(cfile &&other)]. *)
Definition operator_assign (other : Addr) (this : Addr) : M unit :=
  m_stream <- load this ;;
  when (negb (m_stream =? nullptr))
    (call libc (std_fclose m_stream) ;; ret tt) ;;
  s <- std_exchange other nullptr ;;
  store this s.

(** [~cfile()]. *)
Definition dtor (this : Addr) : M unit :=
  m_stream <- load this ;;
  when (negb (m_stream =? nullptr))
    (call libc (std_fclose m_stream) ;;
     store this nullptr).

(** [int reset()]. *)
Definition reset (this : Addr) : M Z :=
  m_stream <- load this ;;
  if negb (m_stream =? nullptr) then
    result <- call libc (std_fclose m_stream) ;;
    store this nullptr ;;
    ret result
  else ret 0.

(** [int reset(std::FILE *other)]. *)
Definition reset_FILE (other : FILE_ptr) (this : Addr) : M Z :=
  m_stream <- load this ;;
  result <- (if negb (m_stream =? nullptr)
             then call libc (std_fclose m_stream)
             else ret 0) ;;
  store this other ;;
  ret result.

(** Overload resolution between [reset(std::FILE* )] and
    [reset(std::nullptr_t) = delete]. *)
Definition reset_adopt (e : HandleExpr) : Resolution (Addr -> M Z) :=
  match e with
  | expr_nullptr => Deleted
  | expr_FILE_ptr other => Selected (reset_FILE other)
  end.

(** [std::FILE *release()]. *)
Definition release (this : Addr) : M FILE_ptr :=
  result <- load this ;;
  store this nullptr ;;
  ret result.

(** [std::FILE *get() const]: the value of the member. *)
Definition get (this : Addr) : M FILE_ptr := load this.

(** [explicit operator bool() const]. *)
Definition operator_bool (this : Addr) : M bool :=
  m_stream <- load this ;; ret (negb (m_stream =? nullptr)).

(** [operator==] and [operator!=] against [nullptr], in either order. *)
Definition operator_eq (object : Addr) : M bool :=
  m_stream <- load object ;; ret (m_stream =? nullptr).

Definition operator_ne (object : Addr) : M bool :=
  m_stream <- load object ;; ret (negb (m_stream =? nullptr)).

(** *** File access *)

Definition fopen (filename : c_str) (mode : Access_mode_arg)
    (this : Addr) : M unit :=
  m_stream <- load this ;;
  assert NDEBUG (m_stream =? nullptr) ;;
  m <- to_access_mode_string_arg mode ;;
  s <- call libc (std_fopen filename m) ;;
  store this s.

Definition freopen (filename : c_str) (mode : Access_mode_arg)
    (this : Addr) : M unit :=
  m <- to_access_mode_string_arg mode ;;
  m_stream <- load this ;;
  s <- call libc (std_freopen filename m m_stream) ;;
  store this s.

Definition fclose (this : Addr) : M Z :=
  m_stream <- load this ;;
  result <- call libc (std_fclose m_stream) ;;
  store this nullptr ;;
  ret result.

Definition fflush (this : Addr) : M Z :=
  m_stream <- load this ;; call libc (std_fflush m_stream).

Definition setbuf (buffer : Z) (this : Addr) : M unit :=
  m_stream <- load this ;; call libc (std_setbuf m_stream buffer) ;; ret tt.

Definition setvbuf_nullptr (this : Addr) : M Z :=
  m_stream <- load this ;; call libc (std_setvbuf m_stream 0 (_IONBF libc) 0).

Definition setvbuf_buffer (buffer : Z) (this : Addr) : M Z :=
  let mode := if buffer =? 0 then _IONBF libc else _IOFBF libc in
  let size := if buffer =? 0 then 0 else BUFSIZ libc in
  m_stream <- load this ;; call libc (std_setvbuf m_stream buffer mode size).

Definition setvbuf (buffer mode size : Z) (this : Addr) : M Z :=
  m_stream <- load this ;; call libc (std_setvbuf m_stream buffer mode size).

(** *** Direct input/output *)

Definition fread (buffer size count : Z) (this : Addr) : M Z :=
  m_stream <- load this ;; call libc (std_fread buffer size count m_stream).

Definition fread_T (sizeof_Type buffer count : Z) (this : Addr) : M Z :=
  fread buffer sizeof_Type count this.

Definition fread_array (sizeof_Type Size buffer : Z) (this : Addr) : M Z :=
  fread buffer sizeof_Type Size this.

Definition fwrite (buffer size count : Z) (this : Addr) : M Z :=
  m_stream <- load this ;; call libc (std_fwrite buffer size count m_stream).

Definition fwrite_T (sizeof_Type buffer count : Z) (this : Addr) : M Z :=
  fwrite buffer sizeof_Type count this.

Definition fwrite_array (sizeof_Type Size buffer : Z) (this : Addr) : M Z :=
  fwrite buffer sizeof_Type Size this.

(** *** Unformatted input/output *)

Definition fgetc (this : Addr) : M Z :=
  m_stream <- load this ;; call libc (std_fgetc m_stream).

Definition fgets (buffer count : Z) (this : Addr) : M Z :=
  m_stream <- load this ;; call libc (std_fgets buffer count m_stream).

Definition fgets_array (Size buffer : Z) (this : Addr) : M Z :=
  fgets buffer (to_int Size) this.

Definition fputc (character : Z) (this : Addr) : M Z :=
  m_stream <- load this ;; call libc (std_fputc character m_stream).

Definition fputs (buffer : c_str) (this : Addr) : M Z :=
  m_stream <- load this ;; call libc (std_fputs buffer m_stream).

Definition ungetc (character : Z) (this : Addr) : M Z :=
  m_stream <- load this ;; call libc (std_ungetc character m_stream).

(** *** Formatted input/output *)

Definition fscanf (format : c_str) (args : list Z) (this : Addr) : M Z :=
  m_stream <- load this ;; call libc (std_fscanf m_stream format args).

Definition vfscanf (format : c_str) (va : Z) (this : Addr) : M Z :=
  m_stream <- load this ;; call libc (std_vfscanf m_stream format va).

Definition fprintf (format : c_str) (args : list Z) (this : Addr) : M Z :=
  m_stream <- load this ;; call libc (std_fprintf m_stream format args).

Definition vfprintf (format : c_str) (va : Z) (this : Addr) : M Z :=
  m_stream <- load this ;; call libc (std_vfprintf m_stream format va).

(** *** File positioning *)

Definition ftell (this : Addr) : M Z :=
  m_stream <- load this ;; call libc (std_ftell m_stream).

Definition fgetpos (position : Z) (this : Addr) : M Z :=
  m_stream <- load this ;; call libc (std_fgetpos m_stream position).

Definition fseek (offset origin : Z) (this : Addr) : M Z :=
  m_stream <- load this ;; call libc (std_fseek m_stream offset origin).

Definition fsetpos (position : Z) (this : Addr) : M Z :=
  m_stream <- load this ;; call libc (std_fsetpos m_stream position).

Definition rewind (this : Addr) : M unit :=
  m_stream <- load this ;; call libc (std_rewind m_stream) ;; ret tt.

(** *** Error handling *)

Definition clearerr (this : Addr) : M unit :=
  m_stream <- load this ;; call libc (std_clearerr m_stream) ;; ret tt.

Definition feof (this : Addr) : M Z :=
  m_stream <- load this ;; call libc (std_feof m_stream).

Definition ferror (this : Addr) : M Z :=
  m_stream <- load this ;; call libc (std_ferror m_stream).

Definition perror (message : c_str) : M unit :=
  call libc (std_perror message) ;; ret tt.

(** *** Operations on files *)

Definition remove (filename : c_str) : M Z :=
  call libc (std_remove filename).

Definition rename (old_filename new_filename : c_str) : M Z :=
  call libc (std_rename old_filename new_filename).

(** [static cfile tmpfile()]: the returned object is built at [result]. *)
Definition tmpfile (result : Addr) : M unit :=
  s <- call libc std_tmpfile ;;
  ctor_FILE s result.

Definition tmpnam (buffer : Z) : M Z :=
  call libc (std_tmpnam buffer).

(** Running a pass-through member function; [None] is the result of a
    function returning [void]. *)
Definition some (m : M Z) : M (option Z) := r <- m ;; ret (Some r).

Definition none (m : M unit) : M (option Z) := m ;; ret None.

Definition invoke (op : Io) (this : Addr) : M (option Z) :=
  match op with
  | io_fflush => some (fflush this)
  | io_setbuf buffer => none (setbuf buffer this)
  | io_setvbuf_nullptr => some (setvbuf_nullptr this)
  | io_setvbuf_buffer buffer => some (setvbuf_buffer buffer this)
  | io_setvbuf buffer mode size => some (setvbuf buffer mode size this)
  | io_fread buffer size count => some (fread buffer size count this)
  | io_fread_T sizeof_Type buffer count => some (fread_T sizeof_Type buffer count this)
  | io_fread_array sizeof_Type Size buffer => some (fread_array sizeof_Type Size buffer this)
  | io_fwrite buffer size count => some (fwrite buffer size count this)
  | io_fwrite_T sizeof_Type buffer count => some (fwrite_T sizeof_Type buffer count this)
  | io_fwrite_array sizeof_Type Size buffer => some (fwrite_array sizeof_Type Size buffer this)
  | io_fgetc => some (fgetc this)
  | io_fgets buffer count => some (fgets buffer count this)
  | io_fgets_array Size buffer => some (fgets_array Size buffer this)
  | io_fputc character => some (fputc character this)
  | io_fputs buffer => some (fputs buffer this)
  | io_ungetc character => some (ungetc character this)
  | io_fscanf format args => some (fscanf format args this)
  | io_vfscanf format va => some (vfscanf format va this)
  | io_fprintf format args => some (fprintf format args this)
  | io_vfprintf format va => some (vfprintf format va this)
  | io_ftell => some (ftell this)
  | io_fgetpos position => some (fgetpos position this)
  | io_fseek offset origin => some (fseek offset origin this)
  | io_fsetpos position => some (fsetpos position this)
  | io_rewind => none (rewind this)
  | io_clearerr => none (clearerr this)
  | io_feof => some (feof this)
  | io_ferror => some (ferror this)
  end.

End Members.

End cfile.

(** ** What the wrappers are compared with *)

(** The documented table of access modes: a set of flags, written as the
    union of their bits, and its canonical string. *)
Definition spec_mode_table : list (Z * string) :=
  let Read := 1 in
  let Write := 2 in
  let Append := 4 in
  let Binary := 8 in
  let Extended := 16 in
  [ (Read, "r");
    (Write, "w");
    (Append, "a");
    (Z.lor Read Extended, "r+");
    (Z.lor Write Extended, "w+");
    (Z.lor Append Extended, "a+");
    (Z.lor Read Binary, "rb");
    (Z.lor Write Binary, "wb");
    (Z.lor Append Binary, "ab");
    (Z.lor (Z.lor Read Binary) Extended, "rb+");
    (Z.lor (Z.lor Write Binary) Extended, "wb+");
    (Z.lor (Z.lor Append Binary) Extended, "ab+") ]%string.

(** The flag values the table enumerates. *)
Definition spec_modes : list Z := map fst spec_mode_table.

(** The number of [std::fclose] calls in a trace. *)
Fixpoint close_calls (t : list Call) : nat :=
  match t with
  | [] => O
  | std_fclose _ :: rest => S (close_calls rest)
  | _ :: rest => close_calls rest
  end.

(** The number of [std::fopen] / [std::freopen] calls in a trace. *)
Fixpoint open_calls (t : list Call) : nat :=
  match t with
  | [] => O
  | std_fopen _ _ :: rest => S (open_calls rest)
  | std_freopen _ _ _ :: rest => S (open_calls rest)
  | _ :: rest => open_calls rest
  end.

(** The world after one more call to <cstdio>. *)
Definition logged (c : Call) (w : World) : World :=
  {| objs := objs w; trace := trace w ++ [c] |}.

(** The <cstdio> function a pass-through member of [CFile] stands for,
    applied to the member's arguments and to a stream. *)
Definition CFile_forwarded (libc : Cstdio) (op : CFile.Io) (stream : FILE_ptr) : Call :=
  match op with
  | CFile.io_fflush => std_fflush stream
  | CFile.io_setbuf buffer => std_setbuf stream buffer
  | CFile.io_setvbuf_nullptr => std_setvbuf stream 0 (_IONBF libc) 0
  | CFile.io_setvbuf_buffer buffer =>
      if buffer =? 0 then std_setvbuf stream buffer (_IONBF libc) 0
      else std_setvbuf stream buffer (_IOFBF libc) (BUFSIZ libc)
  | CFile.io_setvbuf buffer mode size => std_setvbuf stream buffer mode size
  | CFile.io_fread buffer size count => std_fread buffer size count stream
  | CFile.io_fread_T sizeof_T buffer count => std_fread buffer sizeof_T count stream
  | CFile.io_fread_array sizeof_T N buffer => std_fread buffer sizeof_T N stream
  | CFile.io_fwrite buffer size count => std_fwrite buffer size count stream
  | CFile.io_fwrite_T sizeof_T buffer count => std_fwrite buffer sizeof_T count stream
  | CFile.io_fwrite_array sizeof_T N buffer => std_fwrite buffer sizeof_T N stream
  | CFile.io_fgetc => std_fgetc stream
  | CFile.io_fgets buffer count => std_fgets buffer count stream
  | CFile.io_fgets_array N buffer => std_fgets buffer (to_int N) stream
  | CFile.io_fputc character => std_fputc character stream
  | CFile.io_fputs buffer => std_fputs (CFile.to_cstring_string buffer) stream
  | CFile.io_ungetc character => std_ungetc character stream
  | CFile.io_fscanf format args => std_fscanf stream (CFile.to_cstring_string format) args
  | CFile.io_vfscanf format va => std_vfscanf stream (CFile.to_cstring_string format) va
  | CFile.io_fprintf format args => std_fprintf stream (CFile.to_cstring_string format) args
  | CFile.io_vfprintf format va => std_vfprintf stream (CFile.to_cstring_string format) va
  | CFile.io_ftell => std_ftell stream
  | CFile.io_fgetpos position => std_fgetpos stream position
  | CFile.io_fseek offset origin => std_fseek stream offset origin
  | CFile.io_fsetpos position => std_fsetpos stream position
  | CFile.io_rewind => std_rewind stream
  | CFile.io_clearerr => std_clearerr stream
  | CFile.io_feof => std_feof stream
  | CFile.io_ferror => std_ferror stream
  end.

(** Whether a pass-through member of [CFile] returns [void]. *)
Definition CFile_returns_void (op : CFile.Io) : bool :=
  match op with
  | CFile.io_setbuf _ | CFile.io_rewind | CFile.io_clearerr => true
  | _ => false
  end.

(** The same member of [CFile], for a pass-through member of [cfile]: the
    strings [cfile] takes are the [const char*] case of [CFile]'s. *)
Definition as_CFile_io (op : cfile.Io) : CFile.Io :=
  match op with
  | cfile.io_fflush => CFile.io_fflush
  | cfile.io_setbuf buffer => CFile.io_setbuf buffer
  | cfile.io_setvbuf_nullptr => CFile.io_setvbuf_nullptr
  | cfile.io_setvbuf_buffer buffer => CFile.io_setvbuf_buffer buffer
  | cfile.io_setvbuf buffer mode size => CFile.io_setvbuf buffer mode size
  | cfile.io_fread buffer size count => CFile.io_fread buffer size count
  | cfile.io_fread_T sizeof_Type buffer count => CFile.io_fread_T sizeof_Type buffer count
  | cfile.io_fread_array sizeof_Type Size buffer => CFile.io_fread_array sizeof_Type Size buffer
  | cfile.io_fwrite buffer size count => CFile.io_fwrite buffer size count
  | cfile.io_fwrite_T sizeof_Type buffer count => CFile.io_fwrite_T sizeof_Type buffer count
  | cfile.io_fwrite_array sizeof_Type Size buffer => CFile.io_fwrite_array sizeof_Type Size buffer
  | cfile.io_fgetc => CFile.io_fgetc
  | cfile.io_fgets buffer count => CFile.io_fgets buffer count
  | cfile.io_fgets_array Size buffer => CFile.io_fgets_array Size buffer
  | cfile.io_fputc character => CFile.io_fputc character
  | cfile.io_fputs buffer => CFile.io_fputs (CFile.arg_c_str buffer)
  | cfile.io_ungetc character => CFile.io_ungetc character
  | cfile.io_fscanf format args => CFile.io_fscanf (CFile.arg_c_str format) args
  | cfile.io_vfscanf format va => CFile.io_vfscanf (CFile.arg_c_str format) va
  | cfile.io_fprintf format args => CFile.io_fprintf (CFile.arg_c_str format) args
  | cfile.io_vfprintf format va => CFile.io_vfprintf (CFile.arg_c_str format) va
  | cfile.io_ftell => CFile.io_ftell
  | cfile.io_fgetpos position => CFile.io_fgetpos position
  | cfile.io_fseek offset origin => CFile.io_fseek offset origin
  | cfile.io_fsetpos position => CFile.io_fsetpos position
  | cfile.io_rewind => CFile.io_rewind
  | cfile.io_clearerr => CFile.io_clearerr
  | cfile.io_feof => CFile.io_feof
  | cfile.io_ferror => CFile.io_ferror
  end.

(** The same access-mode argument of [CFile], for one of [cfile]. *)
Definition as_CFile_mode (m : cfile.Access_mode_arg) : CFile.Access_mode_arg :=
  match m with
  | cfile.arg_mode access_mode => CFile.arg_Mode access_mode
  | cfile.arg_c_str access_mode => CFile.arg_String (CFile.arg_c_str access_mode)
  end.

(** Two member functions make the same transition from every state. *)
Definition same_behaviour {A : Type} (m1 m2 : M A) : Prop :=
  forall w : World, m1 w = m2 w.

(** Default construction makes the same transition in both classes. *)
Definition default_construction_agrees (kind : InitKind) : Prop :=
  forall this : Addr,
    same_behaviour (CFile.ctor_default kind this) (cfile.ctor_default kind this).

(** Mode translation and the other ownership operations make the same
    transitions in both classes, on the argument types both accept. *)
Definition ownership_agrees (libc : Cstdio) (NDEBUG : bool) : Prop :=
  (forall m : Z,
      same_behaviour (CFile.to_cstring NDEBUG m)
                     (cfile.to_access_mode_string NDEBUG m)) /\
  (forall m : cfile.Access_mode_arg,
      same_behaviour (CFile.to_cstring_access_mode NDEBUG (as_CFile_mode m))
                     (cfile.to_access_mode_string_arg NDEBUG m)) /\
  (forall e : HandleExpr, CFile.ctor_adopt e = cfile.ctor_adopt e) /\
  (forall e : HandleExpr, CFile.reset_adopt libc e = cfile.reset_adopt libc e) /\
  (forall (p : FILE_ptr) (this : Addr),
      same_behaviour (CFile.ctor_FILE p this) (cfile.ctor_FILE p this) /\
      same_behaviour (CFile.reset_FILE libc p this) (cfile.reset_FILE libc p this)) /\
  (forall (filename : c_str) (m : cfile.Access_mode_arg) (this : Addr),
      same_behaviour
        (CFile.ctor_open libc NDEBUG (CFile.arg_c_str filename) (as_CFile_mode m) this)
        (cfile.ctor_open libc NDEBUG filename m this) /\
      same_behaviour
        (CFile.fopen libc NDEBUG (CFile.arg_c_str filename) (as_CFile_mode m) this)
        (cfile.fopen libc NDEBUG filename m this) /\
      same_behaviour
        (CFile.freopen libc NDEBUG (CFile.arg_c_str filename) (as_CFile_mode m) this)
        (cfile.freopen libc NDEBUG filename m this)) /\
  (forall other this : Addr,
      same_behaviour (CFile.ctor_move other this) (cfile.ctor_move other this) /\
      same_behaviour (CFile.operator_assign libc other this)
                     (cfile.operator_assign libc other this)) /\
  (forall this : Addr,
      same_behaviour (CFile.dtor libc this) (cfile.dtor libc this) /\
      same_behaviour (CFile.reset libc this) (cfile.reset libc this) /\
      same_behaviour (CFile.fclose libc this) (cfile.fclose libc this) /\
      same_behaviour (CFile.release this) (cfile.release this) /\
      same_behaviour (CFile.operator_eq this) (cfile.operator_eq this) /\
      same_behaviour (CFile.operator_ne this) (cfile.operator_ne this) /\
      same_behaviour (CFile.tmpfile libc this) (cfile.tmpfile libc this)).

(** The two classes as one design: every ownership operation, default
    construction in either form included, makes the same transition. *)
Definition identical_design (libc : Cstdio) (NDEBUG : bool) : Prop :=
  (forall kind : InitKind, default_construction_agrees kind) /\
  ownership_agrees libc NDEBUG.

(** The letters of a mode string, read off the bits of the flag value: the
    access letter, then [b] for Binary, then [+] for Extended. *)
Definition mode_letters (m : Z) : string :=
  ((if Z.testbit m 0 then "r" else if Z.testbit m 1 then "w" else "a") ++
   (if Z.testbit m 3 then "b" else "") ++
   (if Z.testbit m 4 then "+" else ""))%string.

(** An access-mode argument that needs no assertion: a string, or a flag
    value of the table. *)
Definition CFile_mode_in_table (mode : CFile.Access_mode_arg) : Prop :=
  match mode with
  | CFile.arg_Mode m => In m spec_modes
  | CFile.arg_String _ => True
  end.

(** Two worlds with the same objects and the same trace. *)
Definition same_world (w1 w2 : World) : Prop :=
  (forall a : Addr, objs w1 a = objs w2 a) /\ trace w1 = trace w2.

(** No two different objects hold the same non-null pointer. *)
Definition exclusive (w : World) : Prop :=
  forall a b : Addr,
    a <> b -> objs w a <> nullptr -> objs w a <> objs w b.

(** A member function that, when it returns, has left every object other
    than those listed as it was. *)
Definition changes_only {A : Type} (these : list Addr) (m : M A) : Prop :=
  forall (w : World) (r : A) (w' : World),
    m w = Returns r w' ->
    forall a : Addr, ~ In a these -> objs w' a = objs w a.

(** A member function that, when it returns, has kept [exclusive]. *)
Definition keeps_exclusive {A : Type} (m : M A) : Prop :=
  forall (w : World) (r : A) (w' : World),
    exclusive w -> m w = Returns r w' -> exclusive w'.

(** ** Concrete environments *)

(** A C library in which every call returns [0]. *)
Definition libc_zero : Cstdio :=
  {| std_return := fun _ _ => 0; _IONBF := 2; _IOFBF := 0; BUFSIZ := 8192 |}.

(** A C library in which [std::fclose] fails with [EOF] and every other
    call returns [42]. *)
Definition libc_failing_close : Cstdio :=
  {| std_return := fun _ c => match c with std_fclose _ => -1 | _ => 42 end;
     _IONBF := 2; _IOFBF := 0; BUFSIZ := 8192 |}.

(** A world without calls so far, in which the storage of every object
    holds the pointer [p]. *)
Definition world_of (p : FILE_ptr) : World :=
  {| objs := fun _ => p; trace := [] |}.

(** A world without calls so far, in which the object at [this] holds [p]
    and every other object is empty. *)
Definition world_with (this : Addr) (p : FILE_ptr) : World :=
  {| objs := fun a => if Nat.eqb a this then p else nullptr; trace := [] |}.

(** ** Proofs *)

(** Unfolding the monad down to the state transformer. *)
Ltac run :=
  unfold bind, ret, load, store, call, assert, when, std_exchange, logged;
  cbn [objs trace].

(** Running a sequence of member functions, using the comparisons known
    from the context. *)
Ltac exec :=
  repeat (progress
            (unfold bind, ret, load, store, call, assert, when, std_exchange, logged;
             cbn [objs trace negb];
             rewrite ?Nat.eqb_refl, ?Z.eqb_refl;
             repeat match goal with
                    | H : _ = true |- _ => progress rewrite H
                    | H : _ = false |- _ => progress rewrite H
                    end)).

Lemma switch_default {A : Type} (scrutinee : Z) (cases : list (Z * A)) (default : A) :
  ~ In scrutinee (map fst cases) -> switch scrutinee cases default = default.
Proof.
  induction cases as [| [label body] rest IH]; intro Hnot; [reflexivity |].
  cbn [switch].
  destruct (Z.eqb_spec scrutinee label) as [-> | _].
  - exfalso. apply Hnot. now left.
  - apply IH. intro Hin. apply Hnot. now right.
Qed.

(** The case labels are pairwise distinct, as a switch requires. *)
Lemma spec_modes_NoDup : NoDup spec_modes.
Proof.
  unfold spec_modes, spec_mode_table. cbn.
  repeat (constructor; [cbn; intuition discriminate |]).
  constructor.
Qed.

(** The case labels of both switches are the flag values of the table, and
    every case returns the string the table gives. *)
Lemma to_cstring_cases (NDEBUG : bool) (m : Z) (s : string) :
  In (m, s) spec_mode_table ->
  CFile.to_cstring NDEBUG m = ret (Some s) /\
  cfile.to_access_mode_string NDEBUG m = ret (Some s).
Proof.
  intro Hin. unfold spec_mode_table in Hin. cbn in Hin.
  repeat (destruct Hin as [Heq | Hin];
          [inversion Heq; subst; split; reflexivity |]).
  contradiction.
Qed.

Lemma to_cstring_default (NDEBUG : bool) (m : Z) :
  ~ In m spec_modes ->
  CFile.to_cstring NDEBUG m = (assert NDEBUG false ;; ret None) /\
  cfile.to_access_mode_string NDEBUG m = (assert NDEBUG false ;; ret None).
Proof.
  intro Hnot. split.
  - unfold CFile.to_cstring. now apply switch_default.
  - unfold cfile.to_access_mode_string. now apply switch_default.
Qed.

(** C1. For each of the twelve flag combinations of the documented table,
    [CFile::to_cstring] and [cfile::to_access_mode_string] return exactly
    the table's string, with or without [NDEBUG].  For every other flag
    value, with assertions enabled, the translation stops at the failed
    [assert], and so do the opening constructor, [fopen] and [freopen] of
    both classes, in the state they were called in: no call to
    [std::fopen] or [std::freopen] has been made. *)
Theorem mode_translation_table (libc : Cstdio) (w : World) :
  (forall (NDEBUG : bool) (m : Z) (s : string),
      In (m, s) spec_mode_table ->
      CFile.to_cstring NDEBUG m w = Returns (Some s) w /\
      cfile.to_access_mode_string NDEBUG m w = Returns (Some s) w) /\
  (forall m : Z,
      ~ In m spec_modes ->
      CFile.to_cstring false m w = AssertFail w /\
      cfile.to_access_mode_string false m w = AssertFail w /\
      (forall filename this,
          CFile.ctor_open libc false filename (CFile.arg_Mode m) this w = AssertFail w /\
          CFile.fopen libc false filename (CFile.arg_Mode m) this w = AssertFail w /\
          CFile.freopen libc false filename (CFile.arg_Mode m) this w = AssertFail w) /\
      (forall filename this,
          cfile.ctor_open libc false filename (cfile.arg_mode m) this w = AssertFail w /\
          cfile.fopen libc false filename (cfile.arg_mode m) this w = AssertFail w /\
          cfile.freopen libc false filename (cfile.arg_mode m) this w = AssertFail w)).
Proof.
  split.
  - intros NDEBUG m s Hin.
    destruct (to_cstring_cases NDEBUG m s Hin) as [-> ->]. now split.
  - intros m Hnot.
    destruct (to_cstring_default false m Hnot) as [HC Hc].
    repeat split.
    + now rewrite HC.
    + now rewrite Hc.
    + unfold CFile.ctor_open, CFile.to_cstring_access_mode. now rewrite HC.
    + unfold CFile.fopen, CFile.to_cstring_access_mode. rewrite HC. run.
      now destruct (objs w this =? nullptr).
    + unfold CFile.freopen, CFile.to_cstring_access_mode. now rewrite HC.
    + unfold cfile.ctor_open, cfile.to_access_mode_string_arg. now rewrite Hc.
    + unfold cfile.fopen, cfile.to_access_mode_string_arg. rewrite Hc. run.
      now destruct (objs w this =? nullptr).
    + unfold cfile.freopen, cfile.to_access_mode_string_arg. now rewrite Hc.
Qed.

Lemma mode_translation_table_witness :
  In (25, "rb+"%string) spec_mode_table /\
  ~ In 3 spec_modes /\
  CFile.to_cstring true 25 (world_of 0) = Returns (Some "rb+"%string) (world_of 0) /\
  cfile.to_access_mode_string false 3 (world_of 0) = AssertFail (world_of 0) /\
  CFile.ctor_open libc_zero false (CFile.arg_std_string "f") (CFile.arg_Mode 3) O (world_of 0)
    = AssertFail (world_of 0).
Proof.
  assert (Hin : In (25, "rb+"%string) spec_mode_table)
    by (cbn; intuition congruence).
  assert (Hnot : ~ In 3 spec_modes)
    by (cbn; intuition discriminate).
  destruct (mode_translation_table libc_zero (world_of 0)) as [Htable Hother].
  destruct (Htable true 25 "rb+"%string Hin) as [HC _].
  destruct (Hother 3 Hnot) as [_ [Hc [Hopen _]]].
  destruct (Hopen (CFile.arg_std_string "f") O) as [Hctor _].
  repeat split; assumption.
Defined.

(** C3. [release()] returns the pointer the object held and leaves the
    object empty; the trace of calls to <cstdio> is unchanged, so no
    [std::fclose] (nor any other call) is made, and no other object is
    touched. *)
Theorem release_returns_handle_without_close (this : Addr) (w : World) :
  (exists w',
      CFile.release this w = Returns (objs w this) w' /\
      objs w' this = nullptr /\
      trace w' = trace w /\
      close_calls (trace w') = close_calls (trace w) /\
      (forall other, Nat.eqb other this = false -> objs w' other = objs w other)) /\
  (exists w',
      cfile.release this w = Returns (objs w this) w' /\
      objs w' this = nullptr /\
      trace w' = trace w /\
      close_calls (trace w') = close_calls (trace w) /\
      (forall other, Nat.eqb other this = false -> objs w' other = objs w other)).
Proof.
  split; eexists; (split; [reflexivity |]); cbn [objs trace];
    rewrite Nat.eqb_refl; repeat split; intros other Hother; now rewrite Hother.
Qed.

Lemma release_returns_handle_without_close_witness :
  exists w',
    CFile.release 1%nat (world_of 7) = Returns 7 w' /\
    objs w' 1%nat = nullptr /\
    trace w' = [] /\
    objs w' 2%nat = 7.
Proof.
  destruct (release_returns_handle_without_close 1%nat (world_of 7))
    as [[w' [Hret [Hempty [Htrace [_ Hframe]]]]] _].
  exists w'. repeat split; try assumption.
  apply (Hframe 2%nat). reflexivity.
Defined.

Lemma close_calls_app (t1 t2 : list Call) :
  close_calls (t1 ++ t2) = (close_calls t1 + close_calls t2)%nat.
Proof.
  induction t1 as [| c t1 IH]; [reflexivity |].
  destruct c; cbn; rewrite IH; reflexivity.
Qed.

Lemma eqb_nullptr_false (p : FILE_ptr) : p <> nullptr -> (p =? nullptr) = false.
Proof. intro H. now apply Z.eqb_neq. Qed.

(** C5. The destructor of a non-empty object makes exactly one call to
    <cstdio>, [std::fclose] on the pointer held, whatever that call
    returns; the destructor of an empty object makes none. *)
Theorem destructor_closes_once (libc : Cstdio) (this : Addr) (w : World) :
  (objs w this <> nullptr ->
   (exists w',
       CFile.dtor libc this w = Returns tt w' /\
       trace w' = trace w ++ [std_fclose (objs w this)] /\
       close_calls (trace w') = S (close_calls (trace w))) /\
   (exists w',
       cfile.dtor libc this w = Returns tt w' /\
       trace w' = trace w ++ [std_fclose (objs w this)] /\
       close_calls (trace w') = S (close_calls (trace w)))) /\
  (objs w this = nullptr ->
   CFile.dtor libc this w = Returns tt w /\
   cfile.dtor libc this w = Returns tt w).
Proof.
  split.
  - intro Hne.
    unfold CFile.dtor, cfile.dtor. run.
    rewrite (eqb_nullptr_false _ Hne). cbn [negb].
    split; eexists; (split; [reflexivity |]); cbn [trace];
      (split; [reflexivity |]);
      rewrite close_calls_app; cbn; lia.
  - intro He.
    unfold CFile.dtor, cfile.dtor. run.
    rewrite He. cbn. now split.
Qed.

Lemma destructor_closes_once_witness :
  (exists w',
      CFile.dtor libc_failing_close O (world_of 7) = Returns tt w' /\
      trace w' = [std_fclose 7] /\
      close_calls (trace w') = 1%nat) /\
  cfile.dtor libc_failing_close O (world_of 0) = Returns tt (world_of 0).
Proof.
  destruct (destructor_closes_once libc_failing_close O (world_of 7)) as [Hfull _].
  destruct (destructor_closes_once libc_failing_close O (world_of 0)) as [_ Hempty].
  split.
  - destruct Hfull as [[w' [Hret [Htrace Hcount]]] _].
    + cbn. discriminate.
    + exists w'. repeat split; assumption.
  - apply Hempty. reflexivity.
Defined.

(** C9. After the member [fclose], and after [reset()], the object is
    empty, for every C library, that is, whatever status [std::fclose]
    reports; the status is what the member returns. *)
Theorem empty_after_close (libc : Cstdio) (this : Addr) (w : World) :
  (exists w',
      CFile.fclose libc this w
        = Returns (std_return libc (trace w) (std_fclose (objs w this))) w' /\
      objs w' this = nullptr) /\
  (exists w',
      cfile.fclose libc this w
        = Returns (std_return libc (trace w) (std_fclose (objs w this))) w' /\
      objs w' this = nullptr) /\
  (exists r w', CFile.reset libc this w = Returns r w' /\ objs w' this = nullptr) /\
  (exists r w', cfile.reset libc this w = Returns r w' /\ objs w' this = nullptr).
Proof.
  repeat split.
  - eexists. split; [reflexivity |]. cbn [objs]. now rewrite Nat.eqb_refl.
  - eexists. split; [reflexivity |]. cbn [objs]. now rewrite Nat.eqb_refl.
  - unfold CFile.reset. run.
    destruct (Z.eqb_spec (objs w this) nullptr) as [He | Hne]; cbn [negb];
      do 2 eexists; (split; [reflexivity |]); cbn [objs];
      [assumption | now rewrite Nat.eqb_refl].
  - unfold cfile.reset. run.
    destruct (Z.eqb_spec (objs w this) nullptr) as [He | Hne]; cbn [negb];
      do 2 eexists; (split; [reflexivity |]); cbn [objs];
      [assumption | now rewrite Nat.eqb_refl].
Qed.

(** C10. With assertions enabled, [fopen] on a non-empty object stops at
    its [assert] in the state it was called in: nothing is opened and the
    pointer held is not overwritten.  Hence, whenever [fopen] returns, the
    object was empty when it was called. *)
Theorem fopen_requires_empty (libc : Cstdio) (this : Addr) (w : World) :
  (objs w this <> nullptr ->
   (forall filename mode,
       CFile.fopen libc false filename mode this w = AssertFail w) /\
   (forall filename mode,
       cfile.fopen libc false filename mode this w = AssertFail w)) /\
  (forall filename mode w',
      CFile.fopen libc false filename mode this w = Returns tt w' ->
      objs w this = nullptr) /\
  (forall filename mode w',
      cfile.fopen libc false filename mode this w = Returns tt w' ->
      objs w this = nullptr).
Proof.
  split; [intro Hne; split | split].
  - intros filename mode. unfold CFile.fopen. run.
    now rewrite (eqb_nullptr_false _ Hne).
  - intros filename mode. unfold cfile.fopen. run.
    now rewrite (eqb_nullptr_false _ Hne).
  - intros filename mode w'. unfold CFile.fopen. run.
    destruct (Z.eqb_spec (objs w this) nullptr); [auto | discriminate].
  - intros filename mode w'. unfold cfile.fopen. run.
    destruct (Z.eqb_spec (objs w this) nullptr); [auto | discriminate].
Qed.

Lemma fopen_requires_empty_witness :
  CFile.fopen libc_zero false (CFile.arg_std_string "f") (CFile.arg_Mode CFile.Read)
    O (world_of 7) = AssertFail (world_of 7) /\
  cfile.fopen libc_zero false (Some "f"%string) (cfile.arg_c_str (Some "r"%string))
    O (world_of 7) = AssertFail (world_of 7) /\
  (exists w',
      CFile.fopen libc_failing_close false (CFile.arg_std_string "f")
        (CFile.arg_Mode CFile.Read) O (world_of 0) = Returns tt w' /\
      objs w' O = 42) /\
  objs (world_of 0) O = nullptr.
Proof.
  destruct (fopen_requires_empty libc_zero O (world_of 7)) as [Hfail _].
  destruct (fopen_requires_empty libc_failing_close O (world_of 0)) as [_ [Hreturns _]].
  destruct Hfail as [HC Hc].
  - cbn. discriminate.
  - split; [apply HC |]. split; [apply Hc |].
    split; [eexists; split; reflexivity |].
    apply (Hreturns (CFile.arg_std_string "f") (CFile.arg_Mode CFile.Read)
             (logged (std_fopen (Some "f"%string) (Some "r"%string))
                {| objs := fun a => if Nat.eqb a O then 42 else 0; trace := [] |})).
    reflexivity.
Defined.

(** C4, as stated, fails for the member [fclose]: on an empty object it
    does call <cstdio>, passing the null pointer to [std::fclose]. *)
Lemma fclose_on_empty_calls_platform :
  objs (world_of nullptr) O = nullptr /\
  exists w',
    CFile.fclose libc_zero O (world_of nullptr) = Returns 0 w' /\
    trace w' = [std_fclose nullptr] /\
    trace w' <> trace (world_of nullptr) /\
    close_calls (trace w') = 1%nat.
Proof.
  split; [reflexivity |].
  eexists. split; [reflexivity |].
  cbn. repeat split. discriminate.
Qed.

(** C4, amended. [reset()] is the idempotent close: on a non-empty object
    it calls [std::fclose] on the pointer held, leaves the object empty and
    returns the status of that call; on an empty object it makes no call,
    changes nothing and returns [0].  The member [fclose] does the former
    on every object, empty or not: it has no test of the pointer. *)
Theorem reset_is_the_idempotent_close (libc : Cstdio) (this : Addr) (w : World) :
  let status := std_return libc (trace w) (std_fclose (objs w this)) in
  (objs w this <> nullptr ->
   (exists w',
       CFile.reset libc this w = Returns status w' /\
       objs w' this = nullptr /\
       trace w' = trace w ++ [std_fclose (objs w this)]) /\
   (exists w',
       cfile.reset libc this w = Returns status w' /\
       objs w' this = nullptr /\
       trace w' = trace w ++ [std_fclose (objs w this)])) /\
  (objs w this = nullptr ->
   CFile.reset libc this w = Returns 0 w /\
   cfile.reset libc this w = Returns 0 w) /\
  (exists w',
      CFile.fclose libc this w = Returns status w' /\
      objs w' this = nullptr /\
      trace w' = trace w ++ [std_fclose (objs w this)]) /\
  (exists w',
      cfile.fclose libc this w = Returns status w' /\
      objs w' this = nullptr /\
      trace w' = trace w ++ [std_fclose (objs w this)]).
Proof.
  intro status. subst status.
  split; [intro Hne; split | split; [intro He; split | split]].
  - unfold CFile.reset. run. rewrite (eqb_nullptr_false _ Hne). cbn [negb].
    eexists. split; [reflexivity |]. cbn [objs trace].
    now rewrite Nat.eqb_refl.
  - unfold cfile.reset. run. rewrite (eqb_nullptr_false _ Hne). cbn [negb].
    eexists. split; [reflexivity |]. cbn [objs trace].
    now rewrite Nat.eqb_refl.
  - unfold CFile.reset. run. rewrite He. reflexivity.
  - unfold cfile.reset. run. rewrite He. reflexivity.
  - eexists. split; [reflexivity |]. cbn [objs trace].
    now rewrite Nat.eqb_refl.
  - eexists. split; [reflexivity |]. cbn [objs trace].
    now rewrite Nat.eqb_refl.
Qed.

Lemma reset_is_the_idempotent_close_witness :
  (exists w',
      CFile.reset libc_failing_close O (world_of 7) = Returns (-1) w' /\
      objs w' O = nullptr /\
      trace w' = [std_fclose 7]) /\
  cfile.reset libc_failing_close O (world_of 0) = Returns 0 (world_of 0).
Proof.
  destruct (reset_is_the_idempotent_close libc_failing_close O (world_of 7))
    as [Hfull _].
  destruct (reset_is_the_idempotent_close libc_failing_close O (world_of 0))
    as [_ [Hempty _]].
  split.
  - destruct Hfull as [HC _].
    + cbn. discriminate.
    + exact HC.
  - apply Hempty. reflexivity.
Defined.

(** C6, as stated, fails: with assertions enabled or not, [fread] and
    [fgetc] on an empty object do not stop at an assertion; they return
    after calling [std::fread] and [std::fgetc] with the null pointer. *)
Lemma fread_on_empty_reaches_platform :
  objs (world_of nullptr) O = nullptr /\
  CFile.fread libc_zero 100 1 5 O (world_of nullptr)
    = Returns 0 (logged (std_fread 100 1 5 nullptr) (world_of nullptr)) /\
  CFile.fread libc_zero 100 1 5 O (world_of nullptr)
    <> AssertFail (world_of nullptr) /\
  cfile.fgetc libc_zero O (world_of nullptr)
    = Returns 0 (logged (std_fgetc nullptr) (world_of nullptr)) /\
  cfile.fgetc libc_zero O (world_of nullptr)
    <> AssertFail (world_of nullptr).
Proof.
  repeat split; try reflexivity; discriminate.
Qed.

(** C6, amended. Every pass-through member of both classes, on every
    object, makes exactly one call to <cstdio>, the function it is named
    after, with its own arguments and the pointer the object holds, and
    returns what that call returns.  On an empty object the pointer passed
    is the null pointer: no member tests it, and the result does not depend
    on [NDEBUG]. *)
Theorem pass_through_forwards_unchecked
    (libc : Cstdio) (this : Addr) (w : World) (stream : FILE_ptr) :
  objs w this = stream ->
  (forall op : CFile.Io,
      let c := CFile_forwarded libc op stream in
      CFile.invoke libc op this w
        = Returns (if CFile_returns_void op then None
                   else Some (std_return libc (trace w) c))
                  (logged c w)) /\
  (forall op : cfile.Io,
      let c := CFile_forwarded libc (as_CFile_io op) stream in
      cfile.invoke libc op this w
        = Returns (if CFile_returns_void (as_CFile_io op) then None
                   else Some (std_return libc (trace w) c))
                  (logged c w)).
Proof.
  intros <-. split; intros op; destruct op; cbn;
    try reflexivity.
  - unfold CFile.some, CFile.setvbuf_buffer. run.
    now destruct (buffer =? 0).
  - unfold cfile.some, cfile.setvbuf_buffer. run.
    now destruct (buffer =? 0).
Qed.

Lemma pass_through_forwards_unchecked_witness :
  CFile.invoke libc_zero (CFile.io_fputc 65) O (world_of nullptr)
    = Returns (Some 0) (logged (std_fputc 65 nullptr) (world_of nullptr)) /\
  cfile.invoke libc_zero cfile.io_rewind O (world_of nullptr)
    = Returns None (logged (std_rewind nullptr) (world_of nullptr)).
Proof.
  destruct (pass_through_forwards_unchecked libc_zero O (world_of nullptr) nullptr
              eq_refl) as [HC Hc].
  split; [apply (HC (CFile.io_fputc 65)) | apply (Hc cfile.io_rewind)].
Defined.

(** C7, as stated, fails: a [std::FILE*] expression whose value is null is
    accepted by the adopting constructor and by [reset(std::FILE* )], and
    leaves the object empty; [tmpfile()] adopts the null pointer that
    [std::tmpfile] returns on failure. *)
Lemma null_FILE_ptr_is_adopted :
  (exists w',
      CFile.ctor_adopt (expr_FILE_ptr nullptr) = Selected (CFile.ctor_FILE nullptr) /\
      CFile.ctor_FILE nullptr O (world_of 7) = Returns tt w' /\
      objs w' O = nullptr) /\
  (exists w',
      CFile.reset_adopt libc_zero (expr_FILE_ptr nullptr)
        = Selected (CFile.reset_FILE libc_zero nullptr) /\
      CFile.reset_FILE libc_zero nullptr O (world_of 7) = Returns 0 w' /\
      objs w' O = nullptr) /\
  (exists w',
      CFile.tmpfile libc_zero O (world_of 7) = Returns tt w' /\
      objs w' O = nullptr).
Proof.
  repeat split; eexists; repeat split.
Qed.

(** C7, amended. The literal [nullptr] is rejected at compile time on both
    adoption paths of both classes: overload resolution selects the deleted
    [std::nullptr_t] overload.  An argument of type [std::FILE*] selects the
    adopting overload whatever its value, and the object then holds that
    value, the null pointer included; the constructor makes no call to
    <cstdio>. *)
Theorem nullptr_literal_is_rejected (libc : Cstdio) :
  CFile.ctor_adopt expr_nullptr = Deleted /\
  CFile.reset_adopt libc expr_nullptr = Deleted /\
  cfile.ctor_adopt expr_nullptr = Deleted /\
  cfile.reset_adopt libc expr_nullptr = Deleted /\
  (forall (p : FILE_ptr) (this : Addr) (w : World),
      (exists w',
          CFile.ctor_adopt (expr_FILE_ptr p) = Selected (CFile.ctor_FILE p) /\
          CFile.ctor_FILE p this w = Returns tt w' /\
          objs w' this = p /\ trace w' = trace w) /\
      (exists r w',
          CFile.reset_adopt libc (expr_FILE_ptr p) = Selected (CFile.reset_FILE libc p) /\
          CFile.reset_FILE libc p this w = Returns r w' /\
          objs w' this = p) /\
      (exists w',
          cfile.ctor_adopt (expr_FILE_ptr p) = Selected (cfile.ctor_FILE p) /\
          cfile.ctor_FILE p this w = Returns tt w' /\
          objs w' this = p /\ trace w' = trace w) /\
      (exists r w',
          cfile.reset_adopt libc (expr_FILE_ptr p) = Selected (cfile.reset_FILE libc p) /\
          cfile.reset_FILE libc p this w = Returns r w' /\
          objs w' this = p)).
Proof.
  do 4 (split; [reflexivity |]).
  intros p this w.
  split; [| split; [| split]].
  - eexists. do 2 (split; [reflexivity |]). cbn [objs trace].
    now rewrite Nat.eqb_refl.
  - unfold CFile.reset_FILE. run.
    destruct (negb (objs w this =? nullptr));
      do 2 eexists; do 2 (split; [reflexivity |]); cbn [objs];
      now rewrite Nat.eqb_refl.
  - eexists. do 2 (split; [reflexivity |]). cbn [objs trace].
    now rewrite Nat.eqb_refl.
  - unfold cfile.reset_FILE. run.
    destruct (negb (objs w this =? nullptr));
      do 2 eexists; do 2 (split; [reflexivity |]); cbn [objs];
      now rewrite Nat.eqb_refl.
Qed.

(** Move construction into a new object: the new object holds what the
    source held, the source is empty, and no call to <cstdio> is made. *)
Lemma ctor_move_distinct (other this : Addr) (w : World) :
  other <> this ->
  exists w',
    CFile.ctor_move other this w = Returns tt w' /\
    cfile.ctor_move other this w = Returns tt w' /\
    objs w' this = objs w other /\
    objs w' other = nullptr /\
    trace w' = trace w.
Proof.
  intro Hne. eexists. do 2 (split; [reflexivity |]). cbn [objs trace].
  apply Nat.eqb_neq in Hne.
  rewrite !Nat.eqb_refl, Hne. repeat split.
Qed.

(** Move assignment between two different objects: the destination holds
    what the source held, the source is empty, and the pointer the
    destination held before, if not null, has been closed by the one call
    made. *)
Lemma operator_assign_distinct (libc : Cstdio) (other this : Addr) (w : World) :
  other <> this ->
  exists w',
    CFile.operator_assign libc other this w = Returns tt w' /\
    cfile.operator_assign libc other this w = Returns tt w' /\
    objs w' this = objs w other /\
    objs w' other = nullptr /\
    trace w' = (if objs w this =? nullptr then trace w
                else trace w ++ [std_fclose (objs w this)]).
Proof.
  intro Hne. apply Nat.eqb_neq in Hne.
  unfold CFile.operator_assign, cfile.operator_assign. run.
  destruct (objs w this =? nullptr); cbn [negb];
    eexists; do 2 (split; [reflexivity |]); cbn [objs trace];
    rewrite !Nat.eqb_refl, Hne; repeat split.
Qed.

(** Move assignment of a non-empty object to itself: the pointer is closed
    and kept. *)
Lemma operator_assign_self (libc : Cstdio) (this : Addr) (w : World) :
  objs w this <> nullptr ->
  exists w',
    CFile.operator_assign libc this this w = Returns tt w' /\
    cfile.operator_assign libc this this w = Returns tt w' /\
    objs w' this = objs w this /\
    trace w' = trace w ++ [std_fclose (objs w this)].
Proof.
  intro Hne.
  unfold CFile.operator_assign, cfile.operator_assign. run.
  rewrite (eqb_nullptr_false _ Hne). cbn [negb].
  eexists. do 2 (split; [reflexivity |]). cbn [objs trace].
  now rewrite Nat.eqb_refl.
Qed.

(** C2. Moving [other] into [this], for every pair of objects for which
    the outcome the claim describes is possible at all: two different
    objects, or an empty one moved into itself.  After move construction
    and after move assignment, [this] holds exactly the pointer [other]
    held and [other] is empty, in both classes, and no third object has
    changed.  Move construction makes no call.  Move assignment makes
    exactly one call when [this] held a non-null pointer, [std::fclose] of
    that pointer, and none otherwise; the close comes first: the
    assignment is the move construction run in the state reached by that
    close. *)
Theorem move_transfers_handle (libc : Cstdio) (other this : Addr) (w : World) :
  other <> this \/ objs w other = nullptr ->
  (exists w',
      CFile.ctor_move other this w = Returns tt w' /\
      cfile.ctor_move other this w = Returns tt w' /\
      objs w' this = objs w other /\
      objs w' other = nullptr /\
      trace w' = trace w /\
      (forall a, a <> this -> a <> other -> objs w' a = objs w a)) /\
  (exists w',
      CFile.operator_assign libc other this w = Returns tt w' /\
      cfile.operator_assign libc other this w = Returns tt w' /\
      objs w' this = objs w other /\
      objs w' other = nullptr /\
      trace w' = (if objs w this =? nullptr then trace w
                  else trace w ++ [std_fclose (objs w this)]) /\
      close_calls (trace w')
        = (if objs w this =? nullptr then close_calls (trace w)
           else S (close_calls (trace w))) /\
      (forall a, a <> this -> a <> other -> objs w' a = objs w a) /\
      CFile.ctor_move other this
        (if objs w this =? nullptr then w
         else logged (std_fclose (objs w this)) w) = Returns tt w').
Proof.
  intro Hpair.
  assert (Hframe : forall a : Addr, a <> this -> a <> other ->
                   Nat.eqb a this = false /\ Nat.eqb a other = false)
    by (intros a Hat Hao; split; now apply Nat.eqb_neq).
  destruct (Nat.eqb_spec other this) as [Heq | Hne].
  - subst other.
    destruct Hpair as [Hne | Hempty]; [now elim Hne |].
    assert (Hnull : (objs w this =? nullptr) = true)
      by (rewrite Hempty; reflexivity).
    unfold CFile.ctor_move, cfile.ctor_move,
      CFile.operator_assign, cfile.operator_assign.
    split; exec; eexists; do 2 (split; [reflexivity |]); exec;
      rewrite ?Hempty; repeat split;
      intros a Hat _; apply Nat.eqb_neq in Hat; now rewrite Hat.
  - assert (Hot : Nat.eqb other this = false) by now apply Nat.eqb_neq.
    assert (Hto : Nat.eqb this other = false)
      by (rewrite Nat.eqb_sym; exact Hot).
    unfold CFile.ctor_move, cfile.ctor_move,
      CFile.operator_assign, cfile.operator_assign.
    split.
    + exec. eexists. do 2 (split; [reflexivity |]). exec.
      repeat split.
      intros a Hat Hao. destruct (Hframe a Hat Hao) as [-> ->]. reflexivity.
    + destruct (objs w this =? nullptr) eqn:Hnull; exec;
        eexists; do 2 (split; [reflexivity |]); exec;
        rewrite ?close_calls_app; cbn [close_calls];
        repeat split; try lia;
        intros a Hat Hao; destruct (Hframe a Hat Hao) as [-> ->]; reflexivity.
Qed.

Lemma move_transfers_handle_witness :
  (exists w',
      CFile.ctor_move O 1%nat (world_with O 7) = Returns tt w' /\
      objs w' 1%nat = 7 /\ objs w' O = nullptr /\ trace w' = []) /\
  (exists w',
      cfile.operator_assign libc_failing_close O 1%nat
        {| objs := fun a => if Nat.eqb a O then 7 else 5; trace := [] |}
        = Returns tt w' /\
      objs w' 1%nat = 7 /\ objs w' O = nullptr /\
      trace w' = [std_fclose 5] /\
      objs w' 2%nat = 5) /\
  (exists w',
      CFile.operator_assign libc_failing_close O O (world_of nullptr) = Returns tt w' /\
      objs w' O = nullptr /\ trace w' = []).
Proof.
  destruct (move_transfers_handle libc_failing_close O 1%nat (world_with O 7))
    as [[w1 [H1 [_ [H1this [H1other [H1trace _]]]]]] _];
    [left; discriminate |].
  destruct (move_transfers_handle libc_failing_close O 1%nat
              {| objs := fun a => if Nat.eqb a O then 7 else 5; trace := [] |})
    as [_ [w2 [_ [H2 [H2this [H2other [H2trace [_ [H2frame _]]]]]]]]];
    [left; discriminate |].
  destruct (move_transfers_handle libc_failing_close O O (world_of nullptr))
    as [_ [w3 [H3 [_ [H3this [_ [H3trace _]]]]]]];
    [right; reflexivity |].
  split; [| split].
  - exists w1. repeat split; assumption.
  - exists w2. repeat split; try assumption.
    apply (H2frame 2%nat); discriminate.
  - exists w3. repeat split; assumption.
Defined.

(** Move assignment has no test for [this == &other].  When a non-empty
    object is move-assigned to itself, the pointer it holds is closed and
    then stored again, so the object is left holding a closed stream, and
    its destructor closes that stream a second time.  Both classes. *)
Theorem self_move_assignment_closes_twice (libc : Cstdio) (this : Addr) (w : World) :
  objs w this <> nullptr ->
  (exists w',
      CFile.operator_assign libc this this w = Returns tt w' /\
      cfile.operator_assign libc this this w = Returns tt w' /\
      objs w' this = objs w this /\
      trace w' = trace w ++ [std_fclose (objs w this)]) /\
  (exists w'',
      (CFile.operator_assign libc this this ;; CFile.dtor libc this) w
        = Returns tt w'' /\
      (cfile.operator_assign libc this this ;; cfile.dtor libc this) w
        = Returns tt w'' /\
      objs w'' this = nullptr /\
      trace w'' = trace w ++ [std_fclose (objs w this); std_fclose (objs w this)]).
Proof.
  intro Hne. apply eqb_nullptr_false in Hne.
  unfold CFile.operator_assign, cfile.operator_assign, CFile.dtor, cfile.dtor.
  split; exec; eexists; do 2 (split; [reflexivity |]); exec.
  - now split.
  - split; [reflexivity |]. now rewrite <- app_assoc.
Qed.

Lemma self_move_assignment_closes_twice_witness :
  exists w'',
    (CFile.operator_assign libc_zero O O ;; CFile.dtor libc_zero O) (world_with O 7)
      = Returns tt w'' /\
    trace w'' = [std_fclose 7; std_fclose 7].
Proof.
  destruct (self_move_assignment_closes_twice libc_zero O (world_with O 7))
    as [_ [w'' [HC [_ [_ Htrace]]]]].
  - discriminate.
  - exists w''. split; assumption.
Defined.

(** C8, as stated, fails at default construction.  [cfile]'s member has no
    initializer, so [cfile f;] leaves it as the storage was; [CFile]'s has
    one.  On storage holding [7], the new [CFile] compares equal to
    [nullptr] and the new [cfile] does not.  Besides, what [CFile::get()]
    returns can be assigned to, which replaces the pointer held without any
    call to <cstdio>; [cfile::get()] returns the pointer itself. *)
Lemma default_initialization_differs :
  (exists w',
      (place <- CFile.get O ;; store place 9) (world_with O 7) = Returns tt w' /\
      objs w' O = 9 /\ trace w' = []) /\
  cfile.get O (world_with O 7) = Returns 7 (world_with O 7) /\
  (exists w',
      (CFile.ctor_default default_initialization O ;; CFile.operator_eq O) (world_of 7)
        = Returns true w') /\
  (exists w',
      (cfile.ctor_default default_initialization O ;; cfile.operator_eq O) (world_of 7)
        = Returns false w') /\
  ~ identical_design libc_zero false.
Proof.
  split; [eexists; repeat split |].
  split; [reflexivity |].
  split; [eexists; reflexivity |].
  split; [eexists; reflexivity |].
  intros [Hdefault _].
  specialize (Hdefault default_initialization O (world_of 7)).
  cbn in Hdefault.
  inversion Hdefault as [Hobjs].
  apply (f_equal (fun f => f O)) in Hobjs. cbn in Hobjs.
  discriminate.
Qed.

(** C8, amended. Mode translation returns the same result in both classes
    for every flag value, and the adopting and opening constructors, move
    construction and assignment, the destructor, both [reset]s, [release],
    [fopen], [freopen], [fclose], [tmpfile], the comparisons with [nullptr]
    and value-initialized default construction make the same transitions,
    as does every pass-through member.  Beyond names and argument types the
    classes differ in [get()], by which [CFile] gives the place of its
    member, where [cfile] gives the value stored there, and in
    [operator bool], which only [cfile] has and which is its
    [operator!=]. *)
Theorem designs_agree_on_ownership (libc : Cstdio) (NDEBUG : bool) :
  default_construction_agrees value_initialization /\
  ownership_agrees libc NDEBUG /\
  (forall (op : cfile.Io) (this : Addr),
      same_behaviour (CFile.invoke libc (as_CFile_io op) this)
                     (cfile.invoke libc op this)) /\
  (forall this : Addr,
      same_behaviour (place <- CFile.get this ;; load place) (cfile.get this) /\
      same_behaviour (cfile.operator_bool this) (cfile.operator_ne this)).
Proof.
  split; [intros this w; reflexivity |].
  split; [| split].
  - unfold ownership_agrees.
    split; [intros m w; reflexivity |].
    split; [intros [m | s] w; reflexivity |].
    split; [intros [| p]; reflexivity |].
    split; [intros [| p]; reflexivity |].
    split; [intros p this; split; intro w; reflexivity |].
    split; [intros filename [m | s] this; repeat split; intro w; reflexivity |].
    split; [intros other this; split; intro w; reflexivity |].
    intros this; repeat split; intro w; reflexivity.
  - intros op this w. destruct op; reflexivity.
  - intros this; split; intro w; reflexivity.
Qed.

(** When [NDEBUG] is defined the two assertions are compiled out: a flag
    value outside the table is translated to the null pointer; [fopen] then
    makes one call, [std::fopen] with the file name it was given and that
    null mode, and stores what the call returns in place of the pointer the
    object held, which it does not close; no other object changes. *)
Remark without_assertions
    (libc : Cstdio) (filename : CFile.String_arg) (this : Addr) (w : World) (m : Z) :
  ~ In m spec_modes ->
  let opening := std_fopen (CFile.to_cstring_string filename) None in
  CFile.to_cstring true m w = Returns None w /\
  (exists w',
      CFile.fopen libc true filename (CFile.arg_Mode m) this w = Returns tt w' /\
      objs w' this = std_return libc (trace w) opening /\
      (forall a, a <> this -> objs w' a = objs w a) /\
      trace w' = trace w ++ [opening] /\
      close_calls (trace w') = close_calls (trace w)).
Proof.
  intros Hnot opening. subst opening.
  destruct (to_cstring_default true m Hnot) as [HC _].
  split; [now rewrite HC |].
  unfold CFile.fopen, CFile.to_cstring_access_mode. rewrite HC.
  eexists. split; [reflexivity |]. cbn [objs trace].
  rewrite Nat.eqb_refl, close_calls_app. cbn.
  repeat split; [| lia].
  intros a Hne. apply Nat.eqb_neq in Hne. now rewrite Hne.
Qed.

(** ** Further properties of the two classes *)

Lemma objs_store_same (this : Addr) (value : FILE_ptr) (w : World) (u : unit) (w' : World) :
  store this value w = Returns u w' -> objs w' this = value.
Proof.
  unfold store. intro H. inversion H; subst. cbn [objs].
  now rewrite Nat.eqb_refl.
Qed.

Lemma objs_store_other (this a : Addr) (value : FILE_ptr) (w : World) (u : unit) (w' : World) :
  a <> this -> store this value w = Returns u w' -> objs w' a = objs w a.
Proof.
  unfold store. intros Hne H. inversion H; subst. cbn [objs].
  apply Nat.eqb_neq in Hne. now rewrite Hne.
Qed.

Lemma table_strings_determine_flags (m1 m2 : Z) (s : string) :
  In (m1, s) spec_mode_table -> In (m2, s) spec_mode_table -> m1 = m2.
Proof.
  unfold spec_mode_table. cbn. intros H1 H2.
  repeat (destruct H1 as [H1 | H1]; [inversion H1; subst; clear H1 |]);
    try contradiction;
    repeat (destruct H2 as [H2 | H2];
            [inversion H2; subst; reflexivity || discriminate |]);
    contradiction.
Qed.

Lemma spec_modes_table (m : Z) :
  In m spec_modes -> exists s, In (m, s) spec_mode_table.
Proof.
  unfold spec_modes. intro Hin. apply in_map_iff in Hin.
  destruct Hin as [[m' s] [Heq Hin]]. cbn in Heq. subst. now exists s.
Qed.

(** [operator|] of both classes is commutative, associative and
    idempotent, so the string a union of flags translates to does not
    depend on the order in which the flags are written. *)
Theorem flag_union_order_irrelevant (NDEBUG : bool) (a b c : Z) :
  CFile.operator_or a b = CFile.operator_or b a /\
  CFile.operator_or (CFile.operator_or a b) c
    = CFile.operator_or a (CFile.operator_or b c) /\
  CFile.operator_or a a = a /\
  cfile.operator_or a b = cfile.operator_or b a /\
  cfile.operator_or (cfile.operator_or a b) c
    = cfile.operator_or a (cfile.operator_or b c) /\
  cfile.operator_or a a = a /\
  CFile.to_cstring NDEBUG (CFile.operator_or (CFile.operator_or a b) c)
    = CFile.to_cstring NDEBUG (CFile.operator_or c (CFile.operator_or b a)) /\
  cfile.to_access_mode_string NDEBUG (cfile.operator_or (cfile.operator_or a b) c)
    = cfile.to_access_mode_string NDEBUG (cfile.operator_or c (cfile.operator_or b a)).
Proof.
  unfold CFile.operator_or, cfile.operator_or.
  repeat split.
  - apply Z.lor_comm.
  - symmetry. apply Z.lor_assoc.
  - apply Z.lor_diag.
  - apply Z.lor_comm.
  - symmetry. apply Z.lor_assoc.
  - apply Z.lor_diag.
  - f_equal. rewrite (Z.lor_comm a b). apply Z.lor_comm.
  - f_equal. rewrite (Z.lor_comm a b). apply Z.lor_comm.
Qed.

(** The string returned for a flag value of the table spells its bits: [r],
    [w] or [a] for Read, Write or Append, then [b] if Binary is set, then
    [+] if Extended is set. *)
Theorem mode_string_spells_flags (NDEBUG : bool) (m : Z) (w : World) :
  In m spec_modes ->
  CFile.to_cstring NDEBUG m w = Returns (Some (mode_letters m)) w /\
  cfile.to_access_mode_string NDEBUG m w = Returns (Some (mode_letters m)) w.
Proof.
  unfold spec_modes, spec_mode_table. cbn. intro Hin.
  repeat (destruct Hin as [Heq | Hin]; [subst; split; reflexivity |]).
  contradiction.
Qed.

Lemma mode_string_spells_flags_witness :
  CFile.to_cstring false 26 (world_of 0) = Returns (Some "wb+"%string) (world_of 0) /\
  cfile.to_access_mode_string true 4 (world_of 0) = Returns (Some "a"%string) (world_of 0).
Proof.
  split.
  - apply (mode_string_spells_flags false 26 (world_of 0)).
    cbn. intuition congruence.
  - apply (mode_string_spells_flags true 4 (world_of 0)).
    cbn. intuition congruence.
Defined.

(** A translation that returns has changed nothing, and it returns either
    the string the table gives for the flag value or, only when [NDEBUG] is
    defined and the value is not in the table, the null pointer. *)
Theorem translation_returns_table_string_or_null
    (NDEBUG : bool) (m : Z) (r : c_str) (w w' : World) :
  CFile.to_cstring NDEBUG m w = Returns r w' \/
  cfile.to_access_mode_string NDEBUG m w = Returns r w' ->
  w' = w /\
  match r with
  | Some s => In (m, s) spec_mode_table
  | None => NDEBUG = true /\ ~ In m spec_modes
  end.
Proof.
  intro Hret.
  destruct (in_dec Z.eq_dec m spec_modes) as [Hin | Hnot].
  - destruct (spec_modes_table m Hin) as [s Hs].
    destruct (to_cstring_cases NDEBUG m s Hs) as [HC Hc].
    rewrite HC, Hc in Hret. unfold ret in Hret.
    destruct Hret as [Hret | Hret]; inversion Hret; subst; now split.
  - destruct (to_cstring_default NDEBUG m Hnot) as [HC Hc].
    rewrite HC, Hc in Hret. revert Hret. run.
    destruct NDEBUG; intros [Hret | Hret]; inversion Hret; subst; now repeat split.
Qed.

Lemma translation_returns_table_string_or_null_witness :
  In (9, "rb"%string) spec_mode_table /\
  (true = true /\ ~ In 3 spec_modes).
Proof.
  split.
  - apply (translation_returns_table_string_or_null false 9 (Some "rb"%string)
             (world_of 0) (world_of 0)).
    left. reflexivity.
  - apply (translation_returns_table_string_or_null true 3 None
             (world_of 0) (world_of 0)).
    right. reflexivity.
Defined.

(** Two flag values that translate to the same string are equal. *)
Theorem translation_injective
    (NDEBUG : bool) (m1 m2 : Z) (s : string) (w1 w1' w2 w2' : World) :
  CFile.to_cstring NDEBUG m1 w1 = Returns (Some s) w1' ->
  CFile.to_cstring NDEBUG m2 w2 = Returns (Some s) w2' ->
  m1 = m2.
Proof.
  assert (Hin : forall m w w', CFile.to_cstring NDEBUG m w = Returns (Some s) w' ->
                               In (m, s) spec_mode_table).
  { intros m w w' Hret.
    destruct (in_dec Z.eq_dec m spec_modes) as [Hin | Hnot].
    - destruct (spec_modes_table m Hin) as [s' Hs].
      destruct (to_cstring_cases NDEBUG m s' Hs) as [HC _].
      rewrite HC in Hret. unfold ret in Hret. inversion Hret; subst. exact Hs.
    - destruct (to_cstring_default NDEBUG m Hnot) as [HC _].
      rewrite HC in Hret. revert Hret. run.
      destruct NDEBUG; discriminate. }
  intros H1 H2.
  apply (table_strings_determine_flags m1 m2 s); eapply Hin; eassumption.
Qed.

Lemma translation_injective_witness :
  CFile.operator_or CFile.Read CFile.Extended
    = CFile.operator_or CFile.Extended CFile.Read.
Proof.
  apply (translation_injective false
           (CFile.operator_or CFile.Read CFile.Extended)
           (CFile.operator_or CFile.Extended CFile.Read)
           "r+"%string (world_of 0) (world_of 0) (world_of 7) (world_of 7));
    reflexivity.
Defined.

(** Opening with a flag value of the table is opening with its string:
    the opening constructor, [fopen] and [freopen] make the same transition
    for [Mode] [m] as for the [std::string] or the [const char*] the table
    gives for [m]. *)
Theorem symbolic_mode_is_its_string
    (libc : Cstdio) (NDEBUG : bool) (m : Z) (s : string)
    (filename : CFile.String_arg) (this : Addr) (w : World) :
  In (m, s) spec_mode_table ->
  let raw := CFile.arg_String (CFile.arg_std_string s) in
  let ptr := CFile.arg_String (CFile.arg_c_str (Some s)) in
  CFile.ctor_open libc NDEBUG filename (CFile.arg_Mode m) this w
    = CFile.ctor_open libc NDEBUG filename raw this w /\
  CFile.ctor_open libc NDEBUG filename (CFile.arg_Mode m) this w
    = CFile.ctor_open libc NDEBUG filename ptr this w /\
  CFile.fopen libc NDEBUG filename (CFile.arg_Mode m) this w
    = CFile.fopen libc NDEBUG filename raw this w /\
  CFile.freopen libc NDEBUG filename (CFile.arg_Mode m) this w
    = CFile.freopen libc NDEBUG filename raw this w /\
  (forall name : c_str,
      cfile.ctor_open libc NDEBUG name (cfile.arg_mode m) this w
        = cfile.ctor_open libc NDEBUG name (cfile.arg_c_str (Some s)) this w /\
      cfile.fopen libc NDEBUG name (cfile.arg_mode m) this w
        = cfile.fopen libc NDEBUG name (cfile.arg_c_str (Some s)) this w /\
      cfile.freopen libc NDEBUG name (cfile.arg_mode m) this w
        = cfile.freopen libc NDEBUG name (cfile.arg_c_str (Some s)) this w).
Proof.
  intros Hin raw ptr. subst raw ptr.
  destruct (to_cstring_cases NDEBUG m s Hin) as [HC Hc].
  unfold CFile.ctor_open, CFile.fopen, CFile.freopen,
    cfile.ctor_open, cfile.fopen, cfile.freopen,
    CFile.to_cstring_access_mode, cfile.to_access_mode_string_arg.
  rewrite HC, Hc. repeat split.
Qed.

Lemma symbolic_mode_is_its_string_witness :
  CFile.ctor_open libc_failing_close false (CFile.arg_std_string "log")
    (CFile.arg_Mode (CFile.operator_or CFile.Append CFile.Binary)) O (world_of 0)
  = CFile.ctor_open libc_failing_close false (CFile.arg_std_string "log")
      (CFile.arg_String (CFile.arg_std_string "ab")) O (world_of 0).
Proof.
  apply (symbolic_mode_is_its_string libc_failing_close false 12 "ab"%string
           (CFile.arg_std_string "log") O (world_of 0)).
  cbn. intuition congruence.
Defined.

(** On valid calls the assertions change nothing: with a string or a flag
    value of the table as mode, the opening constructor and [freopen]
    behave the same with and without [NDEBUG], and so does [fopen] on an
    empty object. *)
Theorem assertions_transparent_on_valid_calls
    (libc : Cstdio) (filename : CFile.String_arg) (mode : CFile.Access_mode_arg)
    (this : Addr) (w : World) :
  CFile_mode_in_table mode ->
  CFile.ctor_open libc true filename mode this w
    = CFile.ctor_open libc false filename mode this w /\
  CFile.freopen libc true filename mode this w
    = CFile.freopen libc false filename mode this w /\
  (objs w this = nullptr ->
   CFile.fopen libc true filename mode this w
     = CFile.fopen libc false filename mode this w).
Proof.
  intro Hvalid.
  assert (Hmode : CFile.to_cstring_access_mode true mode
                  = CFile.to_cstring_access_mode false mode).
  { destruct mode as [m | s]; [| reflexivity].
    cbn in Hvalid. destruct (spec_modes_table m Hvalid) as [s Hs].
    cbn [CFile.to_cstring_access_mode].
    destruct (to_cstring_cases true m s Hs) as [-> _].
    destruct (to_cstring_cases false m s Hs) as [-> _].
    reflexivity. }
  unfold CFile.ctor_open, CFile.freopen, CFile.fopen.
  rewrite Hmode. repeat split.
  intro He. run. rewrite He. reflexivity.
Qed.

Lemma assertions_transparent_on_valid_calls_witness :
  CFile.fopen libc_failing_close true (CFile.arg_std_string "f")
    (CFile.arg_Mode CFile.Write) O (world_of 0)
  = CFile.fopen libc_failing_close false (CFile.arg_std_string "f")
      (CFile.arg_Mode CFile.Write) O (world_of 0).
Proof.
  destruct (assertions_transparent_on_valid_calls libc_failing_close
              (CFile.arg_std_string "f") (CFile.arg_Mode CFile.Write) O (world_of 0))
    as [_ [_ Hfopen]].
  - cbn. intuition congruence.
  - apply Hfopen. reflexivity.
Defined.

(** On an empty object [fopen] is the opening constructor, in both classes
    and with or without [NDEBUG]. *)
Theorem fopen_on_empty_is_opening_constructor
    (libc : Cstdio) (NDEBUG : bool) (this : Addr) (w : World) :
  objs w this = nullptr ->
  (forall filename mode,
      CFile.fopen libc NDEBUG filename mode this w
        = CFile.ctor_open libc NDEBUG filename mode this w) /\
  (forall filename mode,
      cfile.fopen libc NDEBUG filename mode this w
        = cfile.ctor_open libc NDEBUG filename mode this w).
Proof.
  intro He.
  split; intros filename mode;
    unfold CFile.fopen, CFile.ctor_open, cfile.fopen, cfile.ctor_open;
    run; rewrite He; destruct NDEBUG; reflexivity.
Qed.

Lemma fopen_on_empty_is_opening_constructor_witness :
  cfile.fopen libc_failing_close false (Some "f"%string) (cfile.arg_mode cfile.read)
    O (world_of 0)
  = cfile.ctor_open libc_failing_close false (Some "f"%string) (cfile.arg_mode cfile.read)
      O (world_of 0).
Proof.
  destruct (fopen_on_empty_is_opening_constructor libc_failing_close false O (world_of 0)
              eq_refl) as [_ Hc].
  apply Hc.
Defined.

(** An object that was opened and is then destroyed: once the mode is
    translated, the only calls made are [std::fopen] and, if that returned
    a stream, one [std::fclose] of that stream.  A failed open leaves
    nothing to close. *)
Theorem opened_stream_is_closed_at_destruction
    (libc : Cstdio) (NDEBUG : bool) (filename : CFile.String_arg)
    (mode : CFile.Access_mode_arg) (ms : c_str) (this : Addr) (w : World) :
  CFile.to_cstring_access_mode NDEBUG mode w = Returns ms w ->
  let opening := std_fopen (CFile.to_cstring_string filename) ms in
  let stream := std_return libc (trace w) opening in
  exists w',
    (CFile.ctor_open libc NDEBUG filename mode this ;; CFile.dtor libc this) w
      = Returns tt w' /\
    objs w' this = nullptr /\
    trace w' = trace w ++ opening ::
                 (if stream =? nullptr then [] else [std_fclose stream]).
Proof.
  intros Hmode opening stream. subst opening stream.
  unfold CFile.ctor_open, CFile.dtor.
  unfold bind at 1 2. rewrite Hmode. run. rewrite Nat.eqb_refl.
  destruct (std_return libc (trace w)
              (std_fopen (CFile.to_cstring_string filename) ms) =? nullptr) eqn:Hnull;
    cbn [negb]; eexists; (split; [reflexivity |]); cbn [objs trace];
    rewrite ?Nat.eqb_refl.
  - apply Z.eqb_eq in Hnull. now split.
  - split; [reflexivity |]. now rewrite <- app_assoc.
Qed.

Lemma opened_stream_is_closed_at_destruction_witness :
  exists w',
    (CFile.ctor_open libc_failing_close false (CFile.arg_std_string "f")
       (CFile.arg_Mode CFile.Read) O ;; CFile.dtor libc_failing_close O) (world_of 0)
      = Returns tt w' /\
    objs w' O = nullptr /\
    trace w' = [std_fopen (Some "f"%string) (Some "r"%string); std_fclose 42].
Proof.
  apply (opened_stream_is_closed_at_destruction libc_failing_close false
           (CFile.arg_std_string "f") (CFile.arg_Mode CFile.Read) (Some "r"%string)
           O (world_of 0)).
  reflexivity.
Defined.

(** [freopen] has no assertion of its own and never closes: once the mode
    is translated it makes one call, [std::freopen] with the pointer held,
    be it null, and the object then holds what that call returned, so it is
    empty exactly when the call failed. *)
Theorem freopen_retargets_without_close
    (libc : Cstdio) (NDEBUG : bool) (filename : CFile.String_arg)
    (mode : CFile.Access_mode_arg) (ms : c_str) (this : Addr) (w : World) :
  CFile.to_cstring_access_mode NDEBUG mode w = Returns ms w ->
  let reopening := std_freopen (CFile.to_cstring_string filename) ms (objs w this) in
  exists w',
    CFile.freopen libc NDEBUG filename mode this w = Returns tt w' /\
    objs w' this = std_return libc (trace w) reopening /\
    trace w' = trace w ++ [reopening] /\
    close_calls (trace w') = close_calls (trace w).
Proof.
  intros Hmode reopening. subst reopening.
  unfold CFile.freopen. unfold bind at 1. rewrite Hmode. run.
  eexists. split; [reflexivity |]. cbn [objs trace].
  rewrite Nat.eqb_refl, close_calls_app. cbn.
  repeat split. lia.
Qed.

Lemma freopen_retargets_without_close_witness :
  exists w',
    CFile.freopen libc_zero false (CFile.arg_std_string "f")
      (CFile.arg_Mode CFile.Read) O (world_with O 7) = Returns tt w' /\
    objs w' O = nullptr /\
    trace w' = [std_freopen (Some "f"%string) (Some "r"%string) 7] /\
    close_calls (trace w') = O.
Proof.
  apply (freopen_retargets_without_close libc_zero false (CFile.arg_std_string "f")
           (CFile.arg_Mode CFile.Read) (Some "r"%string) O (world_with O 7)).
  reflexivity.
Defined.

(** [reset(other)] is [reset()] followed by storing [other]: the same
    result, the same calls and the same objects, in both classes. *)
Theorem reset_FILE_is_reset_then_adopt
    (libc : Cstdio) (other : FILE_ptr) (this : Addr) (w : World) :
  exists r w1 w2,
    CFile.reset_FILE libc other this w = Returns r w1 /\
    cfile.reset_FILE libc other this w = Returns r w1 /\
    (result <- CFile.reset libc this ;; CFile.ctor_FILE other this ;; ret result) w
      = Returns r w2 /\
    same_world w1 w2 /\
    objs w1 this = other.
Proof.
  unfold CFile.reset_FILE, cfile.reset_FILE, CFile.reset, CFile.ctor_FILE. run.
  destruct (objs w this =? nullptr); cbn [negb];
    do 3 eexists; do 3 (split; [reflexivity |]);
    (split; [split; [| reflexivity] |]); cbn [objs];
    try (intro a; destruct (Nat.eqb a this); reflexivity);
    now rewrite Nat.eqb_refl.
Qed.

(** [reset(other)] closes the pointer held even when [other] is that same
    pointer: the object is then left holding a stream that has just been
    closed. *)
Theorem reset_to_own_handle_keeps_closed_stream
    (libc : Cstdio) (this : Addr) (w : World) :
  objs w this <> nullptr ->
  exists w',
    CFile.reset_FILE libc (objs w this) this w
      = Returns (std_return libc (trace w) (std_fclose (objs w this))) w' /\
    cfile.reset_FILE libc (objs w this) this w
      = Returns (std_return libc (trace w) (std_fclose (objs w this))) w' /\
    objs w' this = objs w this /\
    trace w' = trace w ++ [std_fclose (objs w this)].
Proof.
  intro Hne. unfold CFile.reset_FILE, cfile.reset_FILE. run.
  rewrite (eqb_nullptr_false _ Hne). cbn [negb].
  eexists. do 2 (split; [reflexivity |]). cbn [objs trace].
  now rewrite Nat.eqb_refl.
Qed.

Lemma reset_to_own_handle_keeps_closed_stream_witness :
  exists w',
    CFile.reset_FILE libc_zero 7 O (world_with O 7) = Returns 0 w' /\
    objs w' O = 7 /\
    trace w' = [std_fclose 7].
Proof.
  destruct (reset_to_own_handle_keeps_closed_stream libc_zero O (world_with O 7))
    as [w' [HC [_ [Hheld Htrace]]]].
  - cbn. discriminate.
  - exists w'. repeat split; assumption.
Defined.

(** A released stream is never closed by the wrapper: [release()] followed
    by the destructor makes no call at all, and the caller has the
    pointer. *)
Theorem released_stream_is_not_closed (libc : Cstdio) (this : Addr) (w : World) :
  exists w',
    (p <- CFile.release this ;; CFile.dtor libc this ;; ret p) w
      = Returns (objs w this) w' /\
    (p <- cfile.release this ;; cfile.dtor libc this ;; ret p) w
      = Returns (objs w this) w' /\
    trace w' = trace w /\
    objs w' this = nullptr.
Proof.
  unfold CFile.release, CFile.dtor, cfile.release, cfile.dtor. run.
  rewrite Nat.eqb_refl. cbn.
  eexists. do 2 (split; [reflexivity |]). cbn [objs trace].
  now rewrite Nat.eqb_refl.
Qed.

(** No double close: after the member [fclose], after [reset()] and after
    the destructor, a further [reset()] returns [0] and a further
    destructor returns, both without any call and without any change. *)
Theorem nothing_left_to_close (libc : Cstdio) (this : Addr) (w : World) :
  (exists r w',
      CFile.fclose libc this w = Returns r w' /\
      CFile.reset libc this w' = Returns 0 w' /\
      CFile.dtor libc this w' = Returns tt w') /\
  (exists r w',
      CFile.reset libc this w = Returns r w' /\
      CFile.reset libc this w' = Returns 0 w' /\
      CFile.dtor libc this w' = Returns tt w') /\
  (exists w',
      CFile.dtor libc this w = Returns tt w' /\
      CFile.reset libc this w' = Returns 0 w' /\
      CFile.dtor libc this w' = Returns tt w').
Proof.
  unfold CFile.fclose, CFile.reset, CFile.dtor. run.
  split; [| split].
  - do 2 eexists. split; [reflexivity |]. cbn [objs].
    rewrite Nat.eqb_refl. now split.
  - destruct (objs w this =? nullptr) eqn:Hnull; cbn [negb];
      do 2 eexists; (split; [reflexivity |]); cbn [objs];
      rewrite ?Nat.eqb_refl, ?Hnull; now split.
  - destruct (objs w this =? nullptr) eqn:Hnull; cbn [negb];
      eexists; (split; [reflexivity |]); cbn [objs];
      rewrite ?Nat.eqb_refl, ?Hnull; now split.
Qed.

(** A stream moved from one object into another is closed once, by the
    object it was moved into: after move construction of [this] from
    [other] and the destruction of both, the only call made is
    [std::fclose] of the pointer [other] held, and none if it held none. *)
Theorem moved_stream_is_closed_once
    (libc : Cstdio) (other this : Addr) (w : World) :
  other <> this ->
  exists w',
    (CFile.ctor_move other this ;; CFile.dtor libc other ;; CFile.dtor libc this) w
      = Returns tt w' /\
    (cfile.ctor_move other this ;; cfile.dtor libc other ;; cfile.dtor libc this) w
      = Returns tt w' /\
    trace w' = trace w ++
                 (if objs w other =? nullptr then [] else [std_fclose (objs w other)]) /\
    objs w' other = nullptr /\
    objs w' this = nullptr.
Proof.
  intro Hne. apply Nat.eqb_neq in Hne.
  assert (Hne' : Nat.eqb this other = false)
    by (rewrite Nat.eqb_sym; exact Hne).
  unfold CFile.ctor_move, CFile.dtor, cfile.ctor_move, cfile.dtor.
  destruct (objs w other =? nullptr) eqn:Hnull; exec;
    eexists; do 2 (split; [reflexivity |]); exec;
    rewrite ?app_nil_r; repeat split.
  now apply Z.eqb_eq in Hnull.
Qed.

Lemma moved_stream_is_closed_once_witness :
  exists w',
    (CFile.ctor_move O 1%nat ;; CFile.dtor libc_zero O ;; CFile.dtor libc_zero 1%nat)
      (world_with O 7) = Returns tt w' /\
    trace w' = [std_fclose 7].
Proof.
  destruct (moved_stream_is_closed_once libc_zero O 1%nat (world_with O 7))
    as [w' [HC [_ [Htrace _]]]].
  - discriminate.
  - exists w'. split; assumption.
Defined.

(** Move assignment between two different objects loses nothing: after
    [this = std::move(other)] and the destruction of both, the calls made
    are one [std::fclose] of what [this] held, if anything, followed by one
    [std::fclose] of what [other] held, if anything. *)
Theorem move_assignment_closes_both_once
    (libc : Cstdio) (other this : Addr) (w : World) :
  other <> this ->
  exists w',
    (CFile.operator_assign libc other this ;;
     CFile.dtor libc other ;; CFile.dtor libc this) w = Returns tt w' /\
    trace w' = trace w ++
                 (if objs w this =? nullptr then [] else [std_fclose (objs w this)]) ++
                 (if objs w other =? nullptr then [] else [std_fclose (objs w other)]) /\
    objs w' other = nullptr /\
    objs w' this = nullptr.
Proof.
  intro Hne. apply Nat.eqb_neq in Hne.
  assert (Hne' : Nat.eqb this other = false)
    by (rewrite Nat.eqb_sym; exact Hne).
  unfold CFile.operator_assign, CFile.dtor.
  destruct (objs w this =? nullptr) eqn:Hthis;
    destruct (objs w other =? nullptr) eqn:Hother; exec;
    eexists; (split; [reflexivity |]); exec;
    rewrite ?app_nil_r, <- ?app_assoc;
    repeat split;
    now apply Z.eqb_eq in Hother.
Qed.

Lemma move_assignment_closes_both_once_witness :
  exists w',
    (CFile.operator_assign libc_zero O 1%nat ;;
     CFile.dtor libc_zero O ;; CFile.dtor libc_zero 1%nat)
      {| objs := fun a => if Nat.eqb a O then 7 else 5; trace := [] |}
      = Returns tt w' /\
    trace w' = [std_fclose 5; std_fclose 7].
Proof.
  destruct (move_assignment_closes_both_once libc_zero O 1%nat
              {| objs := fun a => if Nat.eqb a O then 7 else 5; trace := [] |})
    as [w' [HC [Htrace _]]].
  - discriminate.
  - exists w'. split; assumption.
Defined.

(** Moving a stream into an empty object and back restores the first
    object: it holds its pointer again, the other object is empty again,
    and no call has been made. *)
Theorem move_there_and_back (libc : Cstdio) (a b : Addr) (w : World) :
  a <> b ->
  objs w b = nullptr ->
  exists w',
    (CFile.operator_assign libc a b ;; CFile.operator_assign libc b a) w
      = Returns tt w' /\
    (cfile.operator_assign libc a b ;; cfile.operator_assign libc b a) w
      = Returns tt w' /\
    same_world w' w.
Proof.
  intros Hne Hb. apply Nat.eqb_neq in Hne.
  assert (Hne' : Nat.eqb b a = false) by (rewrite Nat.eqb_sym; exact Hne).
  assert (Hbn : (objs w b =? nullptr) = true) by (rewrite Hb; reflexivity).
  unfold CFile.operator_assign, cfile.operator_assign. exec.
  eexists. do 2 (split; [reflexivity |]).
  split; [| reflexivity]. intro x. cbn [objs].
  destruct (Nat.eqb_spec x a) as [-> | _]; [reflexivity |].
  destruct (Nat.eqb_spec x b) as [-> | _]; [now rewrite Hb | reflexivity].
Qed.

Lemma move_there_and_back_witness :
  exists w',
    (CFile.operator_assign libc_zero O 1%nat ;; CFile.operator_assign libc_zero 1%nat O)
      (world_with O 7) = Returns tt w' /\
    objs w' O = 7 /\ objs w' 1%nat = nullptr /\ trace w' = [].
Proof.
  destruct (move_there_and_back libc_zero O 1%nat (world_with O 7))
    as [w' [HC [_ [Hobjs Htrace]]]].
  - discriminate.
  - reflexivity.
  - exists w'. split; [exact HC |].
    split; [apply (Hobjs O) |]. split; [apply (Hobjs 1%nat) | exact Htrace].
Defined.

Lemma open_calls_app (t1 t2 : list Call) :
  open_calls (t1 ++ t2) = (open_calls t1 + open_calls t2)%nat.
Proof.
  induction t1 as [| c t1 IH]; [reflexivity |].
  destruct c; cbn; rewrite IH; reflexivity.
Qed.

(** The mode translation either returns or stops, in the state it was
    called in. *)
Lemma to_cstring_access_mode_pure
    (NDEBUG : bool) (mode : CFile.Access_mode_arg) (w : World) :
  (exists ms, CFile.to_cstring_access_mode NDEBUG mode w = Returns ms w) \/
  CFile.to_cstring_access_mode NDEBUG mode w = AssertFail w.
Proof.
  destruct mode as [m | s]; [| left; eexists; reflexivity].
  cbn [CFile.to_cstring_access_mode].
  destruct (in_dec Z.eq_dec m spec_modes) as [Hin | Hnot].
  - destruct (spec_modes_table m Hin) as [s Hs].
    destruct (to_cstring_cases NDEBUG m s Hs) as [-> _].
    left. eexists. reflexivity.
  - destruct (to_cstring_default NDEBUG m Hnot) as [-> _].
    destruct NDEBUG; [left; eexists; reflexivity | right; reflexivity].
Qed.

(** Every pass-through member returns after one call that is neither an
    open nor a close. *)
Lemma invoke_logs_one_call (libc : Cstdio) (this : Addr) (w : World) :
  (forall op : CFile.Io,
      exists r c,
        CFile.invoke libc op this w = Returns r (logged c w) /\
        close_calls [c] = O /\ open_calls [c] = O) /\
  (forall op : cfile.Io,
      exists r c,
        cfile.invoke libc op this w = Returns r (logged c w) /\
        close_calls [c] = O /\ open_calls [c] = O).
Proof.
  split; intro op; destruct op; do 2 eexists;
    (split; [reflexivity | split; reflexivity]).
Qed.

(** The pass-through members never change what an object holds and never
    open or close a stream: each returns after exactly one call to
    <cstdio>, with every object as it was. *)
Theorem pass_through_keeps_ownership_state (libc : Cstdio) (this : Addr) (w : World) :
  (forall op : CFile.Io,
      exists r w',
        CFile.invoke libc op this w = Returns r w' /\
        (forall a, objs w' a = objs w a) /\
        List.length (trace w') = S (List.length (trace w)) /\
        close_calls (trace w') = close_calls (trace w) /\
        open_calls (trace w') = open_calls (trace w)) /\
  (forall op : cfile.Io,
      exists r w',
        cfile.invoke libc op this w = Returns r w' /\
        (forall a, objs w' a = objs w a) /\
        List.length (trace w') = S (List.length (trace w)) /\
        close_calls (trace w') = close_calls (trace w) /\
        open_calls (trace w') = open_calls (trace w)).
Proof.
  destruct (invoke_logs_one_call libc this w) as [HC Hc].
  split; intro op;
    [destruct (HC op) as [r [c [Hret [Hclose Hopen]]]]
    | destruct (Hc op) as [r [c [Hret [Hclose Hopen]]]]];
    exists r, (logged c w); (split; [exact Hret |]);
    unfold logged; cbn [objs trace];
    rewrite List.length_app, close_calls_app, open_calls_app, Hclose, Hopen;
    cbn [List.length]; repeat split; lia.
Qed.

Lemma exclusive_after_move (other this : Addr) (w w' : World) :
  other <> this ->
  exclusive w ->
  (forall x, objs w' x = if Nat.eqb x this then objs w other
                         else if Nat.eqb x other then nullptr else objs w x) ->
  exclusive w'.
Proof.
  intros Hne Hex Hobjs a b Hab. rewrite !Hobjs.
  destruct (Nat.eqb_spec a this) as [Hat | Hat];
    destruct (Nat.eqb_spec b this) as [Hbt | Hbt];
    destruct (Nat.eqb_spec a other) as [Hao | Hao];
    destruct (Nat.eqb_spec b other) as [Hbo | Hbo];
    try congruence; intro Hnn;
    try exact Hnn; try (elim Hnn; reflexivity);
    apply Hex; congruence.
Qed.

Lemma exclusive_after_clear (this : Addr) (w w' : World) :
  exclusive w ->
  (forall x, objs w' x = if Nat.eqb x this then nullptr else objs w x) ->
  exclusive w'.
Proof.
  intros Hex Hobjs a b Hab. rewrite !Hobjs.
  destruct (Nat.eqb_spec a this) as [Hat | Hat];
    destruct (Nat.eqb_spec b this) as [Hbt | Hbt];
    try congruence; intro Hnn;
    try exact Hnn; try (elim Hnn; reflexivity);
    apply Hex; congruence.
Qed.

Lemma exclusive_same_objs (w w' : World) :
  exclusive w -> (forall x, objs w' x = objs w x) -> exclusive w'.
Proof.
  intros Hex Hobjs a b Hab. rewrite !Hobjs. now apply Hex.
Qed.

(** Exclusive ownership is an invariant of the members that transfer or
    give up a stream: if no two objects hold the same non-null pointer
    before move construction or move assignment between different objects,
    [release()], [reset()], [fclose()], the destructor or a pass-through
    member, then none do afterwards.  Both classes. *)
Theorem exclusive_ownership_is_kept (libc : Cstdio) (other this : Addr) :
  other <> this ->
  (keeps_exclusive (CFile.ctor_move other this) /\
   keeps_exclusive (CFile.operator_assign libc other this) /\
   keeps_exclusive (CFile.release this) /\
   keeps_exclusive (CFile.reset libc this) /\
   keeps_exclusive (CFile.fclose libc this) /\
   keeps_exclusive (CFile.dtor libc this) /\
   (forall op, keeps_exclusive (CFile.invoke libc op this))) /\
  (keeps_exclusive (cfile.ctor_move other this) /\
   keeps_exclusive (cfile.operator_assign libc other this) /\
   keeps_exclusive (cfile.release this) /\
   keeps_exclusive (cfile.reset libc this) /\
   keeps_exclusive (cfile.fclose libc this) /\
   keeps_exclusive (cfile.dtor libc this) /\
   (forall op, keeps_exclusive (cfile.invoke libc op this))).
Proof.
  intro Hne.
  assert (Hmove : keeps_exclusive (CFile.ctor_move other this)).
  { intros w r w' Hex. unfold CFile.ctor_move. exec. intro H.
    inversion H; subst.
    apply (exclusive_after_move other this w); auto. }
  assert (Hassign : keeps_exclusive (CFile.operator_assign libc other this)).
  { intros w r w' Hex. unfold CFile.operator_assign.
    destruct (objs w this =? nullptr) eqn:Hnull; exec; intro H;
      inversion H; subst;
      apply (exclusive_after_move other this w); auto. }
  assert (Hrelease : keeps_exclusive (CFile.release this)).
  { intros w r w' Hex. unfold CFile.release. exec. intro H.
    inversion H; subst.
    apply (exclusive_after_clear this w); auto. }
  assert (Hreset : keeps_exclusive (CFile.reset libc this)).
  { intros w r w' Hex. unfold CFile.reset.
    destruct (objs w this =? nullptr) eqn:Hnull; exec; intro H;
      inversion H; subst;
      [assumption | apply (exclusive_after_clear this w); auto]. }
  assert (Hfclose : keeps_exclusive (CFile.fclose libc this)).
  { intros w r w' Hex. unfold CFile.fclose. exec. intro H.
    inversion H; subst.
    apply (exclusive_after_clear this w); auto. }
  assert (Hdtor : keeps_exclusive (CFile.dtor libc this)).
  { intros w r w' Hex. unfold CFile.dtor.
    destruct (objs w this =? nullptr) eqn:Hnull; exec; intro H;
      inversion H; subst;
      [assumption | apply (exclusive_after_clear this w); auto]. }
  repeat split; try assumption.
  - intros op w r w' Hex H.
    destruct (invoke_logs_one_call libc this w) as [HC _].
    destruct (HC op) as [r0 [c [Hret _]]].
    rewrite Hret in H. inversion H; subst.
    apply (exclusive_same_objs w); auto.
  - intros op w r w' Hex H.
    destruct (invoke_logs_one_call libc this w) as [_ Hc].
    destruct (Hc op) as [r0 [c [Hret _]]].
    rewrite Hret in H. inversion H; subst.
    apply (exclusive_same_objs w); auto.
Qed.

Lemma exclusive_ownership_is_kept_witness :
  exclusive (world_with O 7) /\
  exists w',
    CFile.operator_assign libc_zero O 1%nat (world_with O 7) = Returns tt w' /\
    exclusive w'.
Proof.
  assert (Hex : exclusive (world_with O 7)).
  { intros a b Hab. cbn.
    destruct (Nat.eqb_spec a O) as [Ha | Ha];
      destruct (Nat.eqb_spec b O) as [Hb | Hb];
      congruence. }
  split; [exact Hex |].
  destruct (exclusive_ownership_is_kept libc_zero O 1%nat) as [[_ [Hassign _]] _].
  - discriminate.
  - eexists. split; [reflexivity |].
    eapply Hassign; [exact Hex | reflexivity].
Defined.

Lemma not_in_eqb (a : Addr) (these : list Addr) :
  ~ In a these -> forall b, In b these -> Nat.eqb a b = false.
Proof.
  intros Hnot b Hin. apply Nat.eqb_neq. intros ->. contradiction.
Qed.

(** Finishing a frame argument: the member has run; compare the states. *)
Ltac framed :=
  let H := fresh "H" in
  intro H; first [discriminate H | inversion H; subst; exec; reflexivity].

(** Starting a frame argument about the members of [this]. *)
Ltac start_frame this :=
  intros w r w' H a Ha; revert H;
  try (pose proof (not_in_eqb a _ Ha this (or_introl eq_refl)) as Hthis).

(** No member touches an object it was not given: the members of an
    object change at most that object, move construction and move
    assignment change at most the two objects involved, and the
    comparisons and the static members change none. *)
Theorem members_touch_only_their_objects
    (libc : Cstdio) (NDEBUG : bool) (other this : Addr) :
  (forall kind, changes_only [this] (CFile.ctor_default kind this)) /\
  (forall p, changes_only [this] (CFile.ctor_FILE p this)) /\
  (forall filename mode,
      changes_only [this] (CFile.ctor_open libc NDEBUG filename mode this) /\
      changes_only [this] (CFile.fopen libc NDEBUG filename mode this) /\
      changes_only [this] (CFile.freopen libc NDEBUG filename mode this)) /\
  changes_only [this; other] (CFile.ctor_move other this) /\
  changes_only [this; other] (CFile.operator_assign libc other this) /\
  changes_only [this] (CFile.dtor libc this) /\
  changes_only [this] (CFile.reset libc this) /\
  (forall p, changes_only [this] (CFile.reset_FILE libc p this)) /\
  changes_only [this] (CFile.release this) /\
  changes_only [this] (CFile.fclose libc this) /\
  changes_only [this] (CFile.tmpfile libc this) /\
  (forall op, changes_only [] (CFile.invoke libc op this)) /\
  changes_only [] (CFile.operator_eq this) /\
  changes_only [] (CFile.operator_ne this) /\
  (forall s, changes_only [] (CFile.perror libc s)) /\
  (forall s, changes_only [] (CFile.remove libc s)) /\
  (forall s1 s2, changes_only [] (CFile.rename libc s1 s2)) /\
  (forall buffer, changes_only [] (CFile.tmpnam libc buffer)).
Proof.
  split; [intros kind; start_frame this; destruct kind; unfold CFile.ctor_default;
          exec; framed |].
  split; [intros p; start_frame this; unfold CFile.ctor_FILE; exec; framed |].
  split.
  { intros filename mode. split; [| split]; start_frame this.
    - unfold CFile.ctor_open.
      destruct (to_cstring_access_mode_pure NDEBUG mode w) as [[ms Hms] | Hms];
        unfold bind at 1; rewrite Hms; exec; framed.
    - unfold CFile.fopen.
      destruct (to_cstring_access_mode_pure NDEBUG mode w) as [[ms Hms] | Hms];
        destruct NDEBUG; destruct (objs w this =? nullptr) eqn:Hnull;
        exec; rewrite ?Hms; exec; framed.
    - unfold CFile.freopen.
      destruct (to_cstring_access_mode_pure NDEBUG mode w) as [[ms Hms] | Hms];
        unfold bind at 1; rewrite Hms; exec; framed. }
  split.
  { start_frame this.
    pose proof (not_in_eqb a _ Ha other (or_intror (or_introl eq_refl))) as Hother.
    unfold CFile.ctor_move; exec; framed. }
  split.
  { start_frame this.
    pose proof (not_in_eqb a _ Ha other (or_intror (or_introl eq_refl))) as Hother.
    unfold CFile.operator_assign.
    destruct (objs w this =? nullptr) eqn:Hnull; exec; framed. }
  split; [start_frame this; unfold CFile.dtor;
          destruct (objs w this =? nullptr) eqn:Hnull; exec; framed |].
  split; [start_frame this; unfold CFile.reset;
          destruct (objs w this =? nullptr) eqn:Hnull; exec; framed |].
  split; [intros p; start_frame this; unfold CFile.reset_FILE;
          destruct (objs w this =? nullptr) eqn:Hnull; exec; framed |].
  split; [start_frame this; unfold CFile.release; exec; framed |].
  split; [start_frame this; unfold CFile.fclose; exec; framed |].
  split; [start_frame this; unfold CFile.tmpfile, CFile.ctor_FILE; exec; framed |].
  split.
  { intros op. start_frame this.
    destruct (invoke_logs_one_call libc this w) as [HC _].
    destruct (HC op) as [r0 [c [-> _]]]. framed. }
  split; [start_frame this; unfold CFile.operator_eq; exec; framed |].
  split; [start_frame this; unfold CFile.operator_ne; exec; framed |].
  split; [intros s; start_frame this; unfold CFile.perror; exec; framed |].
  split; [intros s; start_frame this; unfold CFile.remove; exec; framed |].
  split; [intros s1 s2; start_frame this; unfold CFile.rename; exec; framed |].
  intros buffer; start_frame this; unfold CFile.tmpnam; exec; framed.
Qed.

Lemma members_touch_only_their_objects_witness :
  exists w',
    CFile.fclose libc_zero O (world_of 7) = Returns 0 w' /\
    objs w' O = nullptr /\
    objs w' 1%nat = objs (world_of 7) 1%nat.
Proof.
  destruct (members_touch_only_their_objects libc_zero false 2%nat O)
    as [_ [_ [_ [_ [_ [_ [_ [_ [_ [Hfclose _]]]]]]]]]].
  eexists. split; [reflexivity |]. split; [reflexivity |].
  eapply (Hfclose (world_of 7) 0 _ eq_refl 1%nat).
  cbn. intuition discriminate.
Defined.

(** [setvbuf(char* )] with a null buffer is [setvbuf(nullptr)]: unbuffered,
    size [0]; with any other buffer it is full buffering of [BUFSIZ] bytes
    in that buffer. *)
Theorem setvbuf_of_buffer_alone
    (libc : Cstdio) (buffer : Z) (this : Addr) (w : World) :
  (buffer = 0 ->
   CFile.setvbuf_buffer libc buffer this w = CFile.setvbuf_nullptr libc this w /\
   cfile.setvbuf_buffer libc buffer this w = cfile.setvbuf_nullptr libc this w) /\
  (buffer <> 0 ->
   CFile.setvbuf_buffer libc buffer this w
     = CFile.setvbuf libc buffer (_IOFBF libc) (BUFSIZ libc) this w /\
   cfile.setvbuf_buffer libc buffer this w
     = cfile.setvbuf libc buffer (_IOFBF libc) (BUFSIZ libc) this w).
Proof.
  unfold CFile.setvbuf_buffer, cfile.setvbuf_buffer.
  split; intro Hbuf.
  - subst buffer. split; reflexivity.
  - apply Z.eqb_neq in Hbuf. rewrite Hbuf. split; reflexivity.
Qed.

Lemma setvbuf_of_buffer_alone_witness :
  CFile.setvbuf_buffer libc_zero 0 O (world_of 7)
    = Returns 0 (logged (std_setvbuf 7 0 2 0) (world_of 7)) /\
  cfile.setvbuf_buffer libc_zero 4096 O (world_of 7)
    = Returns 0 (logged (std_setvbuf 7 4096 0 8192) (world_of 7)).
Proof.
  destruct (setvbuf_of_buffer_alone libc_zero 0 O (world_of 7)) as [Hnull _].
  destruct (setvbuf_of_buffer_alone libc_zero 4096 O (world_of 7)) as [_ Hbuf].
  split.
  - destruct (Hnull eq_refl) as [-> _]. reflexivity.
  - destruct Hbuf as [_ ->]; [discriminate | reflexivity].
Defined.

Lemma to_int_small (n : Z) : 0 <= n < 2 ^ 31 -> to_int n = n.
Proof.
  intro Hn. unfold to_int. rewrite Z.mod_small; lia.
Qed.

Lemma to_int_large (n : Z) : 2 ^ 31 <= n < 2 ^ 32 -> to_int n = n - 2 ^ 32.
Proof.
  intro Hn. unfold to_int.
  replace (n + 2 ^ 31) with (n - 2 ^ 31 + 1 * 2 ^ 32) by lia.
  rewrite Z.mod_add by lia. rewrite Z.mod_small; lia.
Qed.

(** [fgets] on a [char] array passes the array's length as the count when
    it fits an [int]; a length from [2^31] up to [2^32 - 1] reaches
    [std::fgets] as the negative count [N - 2^32]. *)
Theorem fgets_of_array_count
    (libc : Cstdio) (N buffer : Z) (this : Addr) (w : World) :
  (0 <= N < 2 ^ 31 ->
   CFile.fgets_array libc N buffer this w = CFile.fgets libc buffer N this w /\
   cfile.fgets_array libc N buffer this w = cfile.fgets libc buffer N this w) /\
  (2 ^ 31 <= N < 2 ^ 32 ->
   CFile.fgets_array libc N buffer this w
     = CFile.fgets libc buffer (N - 2 ^ 32) this w /\
   cfile.fgets_array libc N buffer this w
     = cfile.fgets libc buffer (N - 2 ^ 32) this w /\
   N - 2 ^ 32 < 0).
Proof.
  unfold CFile.fgets_array, cfile.fgets_array.
  split; intro HN.
  - rewrite (to_int_small N HN). split; reflexivity.
  - rewrite (to_int_large N HN). repeat split. lia.
Qed.

Lemma fgets_of_array_count_witness :
  CFile.fgets_array libc_zero 80 1000 O (world_of 7)
    = Returns 0 (logged (std_fgets 1000 80 7) (world_of 7)) /\
  cfile.fgets_array libc_zero (2 ^ 31) 1000 O (world_of 7)
    = Returns 0 (logged (std_fgets 1000 (- 2 ^ 31) 7) (world_of 7)).
Proof.
  destruct (fgets_of_array_count libc_zero 80 1000 O (world_of 7)) as [Hsmall _].
  destruct (fgets_of_array_count libc_zero (2 ^ 31) 1000 O (world_of 7)) as [_ Hlarge].
  split.
  - destruct Hsmall as [-> _]; [lia | reflexivity].
  - destruct Hlarge as [_ [-> _]]; [lia | reflexivity].
Defined.

(** The object [tmpfile()] returns holds what [std::tmpfile] returned, and
    its destruction closes that stream once, or makes no call when
    [std::tmpfile] failed. *)
Theorem temporary_file_is_closed_at_destruction
    (libc : Cstdio) (result : Addr) (w : World) :
  let stream := std_return libc (trace w) std_tmpfile in
  (exists w1,
      CFile.tmpfile libc result w = Returns tt w1 /\
      cfile.tmpfile libc result w = Returns tt w1 /\
      objs w1 result = stream /\
      trace w1 = trace w ++ [std_tmpfile]) /\
  (exists w2,
      (CFile.tmpfile libc result ;; CFile.dtor libc result) w = Returns tt w2 /\
      (cfile.tmpfile libc result ;; cfile.dtor libc result) w = Returns tt w2 /\
      objs w2 result = nullptr /\
      trace w2 = trace w ++ std_tmpfile ::
                   (if stream =? nullptr then [] else [std_fclose stream])).
Proof.
  intro stream. subst stream.
  unfold CFile.tmpfile, cfile.tmpfile, CFile.ctor_FILE, cfile.ctor_FILE,
    CFile.dtor, cfile.dtor.
  split.
  - exec. eexists. do 2 (split; [reflexivity |]). exec. now split.
  - destruct (std_return libc (trace w) std_tmpfile =? nullptr) eqn:Hnull; exec;
      eexists; do 2 (split; [reflexivity |]); exec.
    + apply Z.eqb_eq in Hnull. now split.
    + split; [reflexivity |]. now rewrite <- app_assoc.
Qed.

(** A member that takes a string makes the same transition for a
    [std::string] as for a [const char*] to the same characters. *)
Theorem string_overloads_agree
    (libc : Cstdio) (NDEBUG : bool) (s : string) (this : Addr) :
  let str := CFile.arg_std_string s in
  let ptr := CFile.arg_c_str (Some s) in
  (forall mode,
      CFile.ctor_open libc NDEBUG str mode this = CFile.ctor_open libc NDEBUG ptr mode this /\
      CFile.fopen libc NDEBUG str mode this = CFile.fopen libc NDEBUG ptr mode this /\
      CFile.freopen libc NDEBUG str mode this = CFile.freopen libc NDEBUG ptr mode this) /\
  (forall filename,
      CFile.ctor_open libc NDEBUG filename (CFile.arg_String str) this
        = CFile.ctor_open libc NDEBUG filename (CFile.arg_String ptr) this) /\
  CFile.fputs libc str this = CFile.fputs libc ptr this /\
  (forall args,
      CFile.fscanf libc str args this = CFile.fscanf libc ptr args this /\
      CFile.fprintf libc str args this = CFile.fprintf libc ptr args this) /\
  (forall va,
      CFile.vfscanf libc str va this = CFile.vfscanf libc ptr va this /\
      CFile.vfprintf libc str va this = CFile.vfprintf libc ptr va this) /\
  CFile.perror libc str = CFile.perror libc ptr /\
  CFile.remove libc str = CFile.remove libc ptr /\
  (forall other,
      CFile.rename libc str other = CFile.rename libc ptr other /\
      CFile.rename libc other str = CFile.rename libc other ptr) /\
  CFile.perror libc ptr = cfile.perror libc (Some s) /\
  CFile.remove libc ptr = cfile.remove libc (Some s) /\
  CFile.rename libc ptr ptr = cfile.rename libc (Some s) (Some s) /\
  (forall buffer, CFile.tmpnam libc buffer = cfile.tmpnam libc buffer).
Proof.
  intros str ptr. repeat split.
Qed.

(** A default-constructed [CFile], and a value-initialized [cfile], is
    empty and its destruction makes no call.  The destruction of a
    default-initialized [cfile] closes whatever non-null pointer the
    storage of the object held. *)
Theorem default_constructed_then_destroyed
    (libc : Cstdio) (this : Addr) (w : World) :
  (forall kind,
      exists w',
        (CFile.ctor_default kind this ;; CFile.dtor libc this) w = Returns tt w' /\
        objs w' this = nullptr /\ trace w' = trace w) /\
  (exists w',
      (cfile.ctor_default value_initialization this ;; cfile.dtor libc this) w
        = Returns tt w' /\
      objs w' this = nullptr /\ trace w' = trace w) /\
  (objs w this <> nullptr ->
   exists w',
     (cfile.ctor_default default_initialization this ;; cfile.dtor libc this) w
       = Returns tt w' /\
     trace w' = trace w ++ [std_fclose (objs w this)]).
Proof.
  unfold CFile.ctor_default, cfile.ctor_default, CFile.dtor, cfile.dtor.
  split; [| split].
  - intros kind. exec. eexists. split; [reflexivity |]. exec. now split.
  - change 0 with nullptr. exec. eexists. split; [reflexivity |]. exec. now split.
  - intro Hne. apply eqb_nullptr_false in Hne. exec.
    eexists. split; reflexivity.
Qed.

Lemma default_constructed_then_destroyed_witness :
  exists w',
    (cfile.ctor_default default_initialization O ;; cfile.dtor libc_zero O) (world_of 7)
      = Returns tt w' /\
    trace w' = [std_fclose 7].
Proof.
  destruct (default_constructed_then_destroyed libc_zero O (world_of 7))
    as [_ [_ Hgarbage]].
  apply Hgarbage. discriminate.
Defined.

(** Assigning through the reference [CFile::get()] returns replaces the
    pointer held without closing the old one, which [reset(p)] would
    close: after the assignment and the destruction of the object, the old
    stream has not been closed by any call. *)
Theorem assignment_through_get_skips_close
    (libc : Cstdio) (p : FILE_ptr) (this : Addr) (w : World) :
  exists w',
    (place <- CFile.get this ;; store place p ;; CFile.dtor libc this) w
      = Returns tt w' /\
    trace w' = trace w ++ (if p =? nullptr then [] else [std_fclose p]) /\
    objs w' this = nullptr.
Proof.
  unfold CFile.get, CFile.dtor.
  destruct (p =? nullptr) eqn:Hnull; exec;
    eexists; (split; [reflexivity |]); exec; rewrite ?app_nil_r;
    split; try reflexivity.
  now apply Z.eqb_eq in Hnull.
Qed.

Lemma without_assertions_witness :
  CFile.to_cstring true 3 (world_with O 7) = Returns None (world_with O 7) /\
  exists w',
    CFile.fopen libc_failing_close true (CFile.arg_std_string "data.bin")
      (CFile.arg_Mode 3) O (world_with O 7) = Returns tt w' /\
    objs w' O = 42 /\
    objs w' 1%nat = nullptr /\
    trace w' = [std_fopen (Some "data.bin"%string) None] /\
    close_calls (trace w') = O.
Proof.
  destruct (without_assertions libc_failing_close (CFile.arg_std_string "data.bin")
              O (world_with O 7) 3)
    as [Hnull [w' [Hret [Hstored [Hframe [Htrace Hclose]]]]]].
  - cbn. intuition discriminate.
  - split; [exact Hnull |].
    exists w'. repeat split; try assumption.
    apply (Hframe 1%nat). discriminate.
Defined.
